(** * reddit-modqueue-discord: a shallow embedding of [bot.py]

    The development follows the layout of the source file: the Python
    string primitives the bot relies on, the PRAW objects it reads, the
    PostgreSQL session and the Discord webhook it talks to, then the methods
    of class [Bot] in source order, and finally the properties of the
    streaming loop.

    Python [str] values are modelled as [string]; a character is an [ascii],
    so the model covers text whose code points lie below 256. *)

From Stdlib Require Import String Ascii List ZArith Lia Bool DecimalString.
From stdpp Require Import gmap strings.
Import ListNotations.

#[local] Arguments String.append _ _ : simpl nomatch.

(** ** Python string primitives *)

Module Py.

(** [s[:n]] *)
Definition slice_to (n : nat) (s : string) : string := substring 0 n s.

(** [template.format(a1, ..., an)] for templates whose only replacement fields
    are the automatic [{}].  Python raises [IndexError] when the fields
    outnumber the arguments; no call site of bot.py does that, and the
    model then leaves the field empty. *)
Fixpoint format (template : string) (args : list string) : string :=
  match template with
  | EmptyString => EmptyString
  | String "{" (String "}" rest) =>
      match args with
      | a :: args' => a +:+ format rest args'
      | [] => format rest []
      end
  | String c rest => String c (format rest args)
  end.

Definition newline : string := String (ascii_of_nat 10) EmptyString.

(** ['\n'.join(lines)] *)
Definition join_lines (lines : list string) : string :=
  String.concat newline lines.

(** [str(n)] for an [int] *)
Definition str_int (n : Z) : string := NilZero.string_of_int (Z.to_int n).

Definition is_lower (c : ascii) : bool :=
  let n := nat_of_ascii c in (97 <=? n) && (n <=? 122).
Definition is_upper (c : ascii) : bool :=
  let n := nat_of_ascii c in (65 <=? n) && (n <=? 90).
Definition to_upper (c : ascii) : ascii :=
  if is_lower c then ascii_of_nat (nat_of_ascii c - 32) else c.
Definition to_lower (c : ascii) : ascii :=
  if is_upper c then ascii_of_nat (nat_of_ascii c + 32) else c.

(** [s.title()] on ASCII text: a letter that follows a letter is lowered,
    any other letter is raised. *)
Fixpoint title_from (after_letter : bool) (s : string) : string :=
  match s with
  | EmptyString => EmptyString
  | String c rest =>
      if is_lower c || is_upper c
      then String (if after_letter then to_lower c else to_upper c)
                  (title_from true rest)
      else String c (title_from false rest)
  end.
Definition title (s : string) : string := title_from false s.

Definition dquote : ascii := Eval cbv in ascii_of_nat 34.
Definition backslash : ascii := Eval cbv in ascii_of_nat 92.

Definition hex_digit (n : nat) : ascii :=
  nth n (list_ascii_of_string "0123456789abcdef") "0"%char.

(** One character of [json.dumps(s)] with the default [ensure_ascii=True]:
    the two-character escapes of [ESCAPE_DCT], a [\u00xx] escape for every
    other character outside [' '..'~'], the character itself otherwise. *)
Definition json_escape (c : ascii) : string :=
  let n := nat_of_ascii c in
  let esc (d : ascii) := String backslash (String d EmptyString) in
  if Ascii.eqb c dquote then esc dquote
  else if Ascii.eqb c backslash then esc backslash
  else if n =? 8 then esc "b"%char
  else if n =? 12 then esc "f"%char
  else if n =? 10 then esc "n"%char
  else if n =? 13 then esc "r"%char
  else if n =? 9 then esc "t"%char
  else if (32 <=? n) && (n <=? 126) then String c EmptyString
  else String backslash
         (String "u"%char (String "0"%char (String "0"%char
           (String (hex_digit (n / 16))
             (String (hex_digit (n mod 16)) EmptyString))))).

Fixpoint json_escape_all (s : string) : string :=
  match s with
  | EmptyString => EmptyString
  | String c rest => json_escape c +:+ json_escape_all rest
  end.

(** [json.dumps(s)] for a [str] *)
Definition json_dumps (s : string) : string :=
  String dquote (json_escape_all s +:+ String dquote EmptyString).

End Py.

(** ** The PRAW objects the bot reads *)

(** [praw.models.Redditor]; [str(author)] is its name. *)
Record Redditor := mkRedditor {
  name : string;
  icon_img : string;
  author_created_utc : Z;
  link_karma : Z;
  comment_karma : Z
}.

(** [report.permalink] is either a plain attribute holding the path, or (in
    the client versions where [Comment.permalink] is a bound method) a
    callable whose result for [fast=True] is the path. *)
Inductive Permalink :=
| PermalinkAttr (path : string)
| PermalinkMethod (fast_path : string).

(** The attributes a submission and a comment share.  [author] is [None]
    when the account is gone; the entries of [mod_reports] and
    [user_reports] are kept as the pair [(r[0], str(r[1]))]. *)
Record Item := mkItem {
  id : string;
  author : option Redditor;
  created_utc : Z;
  permalink : Permalink;
  mod_reports : list (string * string);
  user_reports : list (string * string)
}.

(** A report is a [Submission] or a [Comment].  A comment carries what
    [comment.parent()] returns: the submission when the comment is
    top-level, the comment it replies to otherwise. *)
Inductive Report :=
| Submission (it : Item) (title selftext : string)
| Comment (it : Item) (body : string) (parent : Report).

Definition item (r : Report) : Item :=
  match r with
  | Submission it _ _ => it
  | Comment it _ _ => it
  end.

(** [str(report)], the report's identity *)
Definition str (r : Report) : string := id (item r).

(** [str(report.author)] *)
Definition str_author (a : option Redditor) : string :=
  match a with
  | Some u => name u
  | None => "None"
  end.

(** [comment.is_root]: the parent is the submission. *)
Definition is_root (r : Report) : bool :=
  match r with
  | Comment _ _ (Submission _ _ _) => true
  | _ => false
  end.

(** ** The notification document ([dhooks.Embed]) *)

Record Embed := mkEmbed {
  color : Z;
  embed_title : string;
  url : string;
  timestamp : string;
  embed_author : option (string * string * string);
  fields : list (string * string);
  footer : option (string * string);
  thumbnail : option string
}.

(** [Embed(color=..., title=..., url=..., timestamp=...)] *)
Definition new_embed (c : Z) (t u ts : string) : Embed :=
  mkEmbed c t u ts None [] None None.

(** [embed.set_author(name=..., url=..., icon_url=...)] *)
Definition set_author (e : Embed) (n u icon : string) : Embed :=
  mkEmbed (color e) (embed_title e) (url e) (timestamp e)
          (Some (n, u, icon)) (fields e) (footer e) (thumbnail e).

(** [embed.add_field(name=..., value=...)] *)
Definition add_field (e : Embed) (n v : string) : Embed :=
  mkEmbed (color e) (embed_title e) (url e) (timestamp e)
          (embed_author e) (fields e ++ [(n, v)]) (footer e) (thumbnail e).

(** [embed.set_footer(text=..., icon_url=...)] *)
Definition set_footer (e : Embed) (text icon : string) : Embed :=
  mkEmbed (color e) (embed_title e) (url e) (timestamp e)
          (embed_author e) (fields e) (Some (text, icon)) (thumbnail e).

(** [embed.set_thumbnail(url)] *)
Definition set_thumbnail (e : Embed) (u : string) : Embed :=
  mkEmbed (color e) (embed_title e) (url e) (timestamp e)
          (embed_author e) (fields e) (footer e) (Some u).

(** ** Exceptions and outcomes *)

Inductive Exn :=
| AttributeError   (* an attribute read on [None] or on the wrong class *)
| TypeError        (* [fetchone()[0]] on an empty result *)
| ClientException  (* [comment.refresh()] failed *)
| WebhookError.    (* [hook.send] failed *)

(** What a call does: it returns, it raises, or it leaves the part of the
    outside world this development describes ([Unmodelled]: the database
    was handed a statement the store model below does not interpret). *)
Inductive Outcome (A : Type) :=
| Ok (a : A)
| Raise (e : Exn)
| Unmodelled.
Arguments Ok {A} a.
Arguments Raise {A} e.
Arguments Unmodelled {A}.

Definition obind {A B} (o : Outcome A) (k : A -> Outcome B) : Outcome B :=
  match o with
  | Ok a => k a
  | Raise e => Raise e
  | Unmodelled => Unmodelled
  end.

(** ** The outside world *)

(** What the process has done so far: the rows of [public.reports] that are
    committed, the rows inserted by the open transaction, the calls of
    [hook.send] (each with the [str(report)] that [__send_to_discord] was
    called for), and the lines printed. *)
Record World := mkWorld {
  committed : list string;
  pending : list string;
  dispatches : list (string * Embed);
  stdout : list string
}.

(** The collaborators the bot does not control: whether the webhook accepts
    a document (given the documents sent before), whether a comment can be
    refreshed, and the two library renderings of a timestamp:
    [datetime.fromtimestamp(t).isoformat()] and
    [naturaltime(datetime.utcnow() - datetime.fromtimestamp(t))]. *)
Record Env := mkEnv {
  webhook_accepts : list Embed -> Embed -> bool;
  refresh_ok : Report -> bool;
  isoformat : Z -> string;
  naturaltime_since : Z -> string
}.

(** Calls that act on the world. *)
Definition M (A : Type) : Type := World -> Outcome A * World.

Definition ret {A} (a : A) : M A := fun w => (Ok a, w).

Definition bind {A B} (m : M A) (k : A -> M B) : M B :=
  fun w =>
    match m w with
    | (Ok a, w') => k a w'
    | (Raise e, w') => (Raise e, w')
    | (Unmodelled, w') => (Unmodelled, w')
    end.

Definition lift {A} (o : Outcome A) : M A := fun w => (o, w).

Declare Scope bot_scope.
Delimit Scope bot_scope with bot.
Notation "x <- m ;; k" := (bind m (fun x => k))
  (at level 100, m at next level, k at level 200, right associativity) : bot_scope.
Notation "m ;; k" := (bind m (fun _ => k))
  (at level 100, k at level 200, right associativity) : bot_scope.

Declare Scope outcome_scope.
Delimit Scope outcome_scope with out.
Notation "x <- o ;; k" := (obind o (fun x => k))
  (at level 100, o at next level, k at level 200, right associativity) : outcome_scope.

(** [print(line)] *)
Definition print (line : string) : M unit :=
  fun w => (Ok tt, mkWorld (committed w) (pending w) (dispatches w)
                           (stdout w ++ [line])).

(** ** The PostgreSQL session

    [cursor.execute] receives the statement as text.  The store model
    interprets the two shapes the bot issues,
    [SELECT exists(SELECT * FROM public.reports WHERE report=<literal>)] and
    [INSERT INTO public.reports(report) VALUES (<literal>)],
    where <literal> is a string constant between single quotes with no
    quote inside.  Any other text is [Unmodelled]: the development says
    nothing about what the server does with it. *)

Inductive Statement :=
| SelectExists (value : string)
| InsertReport (value : string).

Fixpoint strip_prefix (p s : string) : option string :=
  match p, s with
  | EmptyString, _ => Some s
  | String a p', String b s' => if Ascii.eqb a b then strip_prefix p' s' else None
  | String _ _, EmptyString => None
  end.

(** Reads a string constant whose opening quote has been consumed, up to
    the next quote: the value, and the text after the closing quote. *)
Fixpoint scan_literal (s : string) : option (string * string) :=
  match s with
  | EmptyString => None
  | String c rest =>
      if Ascii.eqb c "'" then Some (EmptyString, rest)
      else
        match scan_literal rest with
        | Some (v, after) => Some (String c v, after)
        | None => None
        end
  end.

Definition select_head : string :=
  "SELECT exists(SELECT * FROM public.reports WHERE report='".
Definition insert_head : string :=
  "INSERT INTO public.reports(report) VALUES ('".

Definition parse_statement (q : string) : option Statement :=
  match strip_prefix select_head q with
  | Some body =>
      match scan_literal body with
      | Some (v, after) =>
          if String.eqb after ")" then Some (SelectExists v) else None
      | None => None
      end
  | None =>
      match strip_prefix insert_head q with
      | Some body =>
          match scan_literal body with
          | Some (v, after) =>
              if String.eqb after ")" then Some (InsertReport v) else None
          | None => None
          end
      | None => None
      end
  end.

(** [cursor.execute(q)], returning the result rows (one boolean column).  A
    session sees its own uncommitted rows. *)
Definition cursor_execute (q : string) : M (list bool) :=
  fun w =>
    match parse_statement q with
    | Some (SelectExists v) =>
        (Ok [existsb (String.eqb v) (committed w ++ pending w)], w)
    | Some (InsertReport v) =>
        (Ok [], mkWorld (committed w) (pending w ++ [v]) (dispatches w) (stdout w))
    | None => (Unmodelled, w)
    end.

(** [conn.commit()] *)
Definition conn_commit : M unit :=
  fun w => (Ok tt, mkWorld (committed w ++ pending w) [] (dispatches w) (stdout w)).

(** [hook.send(embed=embed)]; [tag] is the identity recorded with the call. *)
Definition hook_send (env : Env) (tag : string) (embed : Embed) : M unit :=
  fun w =>
    let w' := mkWorld (committed w) (pending w)
                      (dispatches w ++ [(tag, embed)]) (stdout w) in
    if webhook_accepts env (map snd (dispatches w)) embed
    then (Ok tt, w')
    else (Raise WebhookError, w').

(** ** class [Bot] *)

(** The value of [os.environ.get(key, False)]: the variable's text, or
    [False] when it is not set. *)
Inductive EnvValue :=
| EnvStr (s : string)
| EnvFalse.

Definition environ_get (environ : gmap string string) (key : string) : EnvValue :=
  match environ !! key with
  | Some s => EnvStr s
  | None => EnvFalse
  end.

(** The truth value Python gives it in [if] and [not]. *)
Definition truthy (v : EnvValue) : bool :=
  match v with
  | EnvStr s => negb (String.eqb s EmptyString)
  | EnvFalse => false
  end.

(** The attributes [__init__] sets that the methods read. *)
Record Bot := mkBot {
  webhook : string;
  subreddit : string;
  client_id : string;
  client_secret : string;
  refresh_token : string;
  user_agent : string;
  db_url : string;
  skip_discord : EnvValue
}.

(** [Bot.__init__]: [None] when [False in (...)] holds and the process
    exits; the table [public.reports] is kept if it exists. *)
Definition init (environ : gmap string string) : option Bot :=
  match environ_get environ "WEBHOOK", environ_get environ "SUBREDDIT",
        environ_get environ "CLIENT_ID", environ_get environ "CLIENT_SECRET",
        environ_get environ "REFRESH_TOKEN", environ_get environ "USER_AGENT",
        environ_get environ "DATABASE_URL" with
  | EnvStr w, EnvStr s, EnvStr ci, EnvStr cs, EnvStr rt, EnvStr ua, EnvStr db =>
      Some (mkBot w s ci cs rt ua db (environ_get environ "SKIP_DISCORD"))
  | _, _, _, _, _, _, _ => None
  end.

(** [Bot.__get_report_url] *)
Definition get_report_url (bot : Bot) (report : Report) : string :=
  match permalink (item report) with
  | PermalinkMethod fast_path =>
      Py.format "https://www.reddit.com/r/{}{}" [subreddit bot; fast_path]
  | PermalinkAttr path =>
      Py.format "https://www.reddit.com{}" [path]
  end.

(** [isinstance(report, praw.models.reddit.submission.Submission)] *)
Definition isinstance_Submission (report : Report) : bool :=
  match report with
  | Submission _ _ _ => true
  | Comment _ _ _ => false
  end.

(** [Bot.__get_report_type] *)
Definition get_report_type (report : Report) : string :=
  let isSubmission := isinstance_Submission report in
  if isSubmission then "submission" else "comment".

(** [ancestor.parent()] *)
Definition parent_of (r : Report) : Outcome Report :=
  match r with
  | Comment _ _ p => Ok p
  | Submission _ _ _ => Raise AttributeError
  end.

(** [ancestor.refresh()] *)
Definition refresh (env : Env) (r : Report) : Outcome unit :=
  if refresh_ok env r then Ok tt else Raise ClientException.

(** The [while not ancestor.is_root] loop of
    [Bot.__get_submission_from_comment]: the top-level comment of the chain.
    A submission has no [is_root]. *)
Fixpoint top_level_comment (env : Env) (ancestor : Report) (refresh_counter : nat)
  : Outcome Report :=
  match ancestor with
  | Submission _ _ _ => Raise AttributeError
  | Comment _ _ p =>
      if is_root ancestor then Ok ancestor
      else
        (_ <- (if refresh_counter mod 9 =? 0 then refresh env p else Ok tt) ;;
         top_level_comment env p (refresh_counter + 1))%out
  end.

(** [Bot.__get_submission_from_comment] *)
Definition get_submission_from_comment (env : Env) (comment : Report) : Outcome Report :=
  (ancestor <- top_level_comment env comment 0 ;;
   result <- parent_of ancestor ;;
   Ok result)%out.

(** [report.title], [report.selftext], [report.body], [report.author.name] *)
Definition title_of (r : Report) : Outcome string :=
  match r with
  | Submission _ t _ => Ok t
  | Comment _ _ _ => Raise AttributeError
  end.
Definition selftext_of (r : Report) : Outcome string :=
  match r with
  | Submission _ _ s => Ok s
  | Comment _ _ _ => Raise AttributeError
  end.
Definition body_of (r : Report) : Outcome string :=
  match r with
  | Comment _ b _ => Ok b
  | Submission _ _ _ => Raise AttributeError
  end.
Definition author_of (r : Report) : Outcome Redditor :=
  match author (item r) with
  | Some u => Ok u
  | None => Raise AttributeError
  end.

(** [text[:120] + '...' if len(text) > 120 else text] *)
Definition excerpt (text : string) : string :=
  if 120 <? String.length text then Py.slice_to 120 text +:+ "..." else text.

(** The branch of [if reportType == "submission": ... elif reportType ==
    "comment": ... else: ...] that runs. *)
Inductive ContentBranch :=
| SubmissionBranch
| CommentBranch
| UnknownBranch.

Definition content_branch (reportType : string) : ContentBranch :=
  if String.eqb reportType "submission" then SubmissionBranch
  else if String.eqb reportType "comment" then CommentBranch
  else UnknownBranch.

(** [(reportTitle, reportContent)] as the three branches set them. *)
Definition report_content (env : Env) (report : Report) (reportType : string)
  : Outcome (string * string) :=
  match content_branch reportType with
  | SubmissionBranch =>
      (reportTitle <- title_of report ;;
       selftext <- selftext_of report ;;
       Ok (reportTitle, excerpt selftext))%out
  | CommentBranch =>
      (parent <- get_submission_from_comment env report ;;
       reportTitle <- title_of parent ;;
       body <- body_of report ;;
       Ok (reportTitle, excerpt body))%out
  | UnknownBranch => Ok ("(unknown)", "(unknown)")
  end.

(** The lines ['{} - {}'.format(reason, user)] of a reports field. *)
Definition report_lines (reports : list (string * string)) : list string :=
  map (fun r => Py.format "{} - {}" [fst r; snd r]) reports.

(** [if len(reports) > 0: embed.add_field(name=label, value='\n'.join(...))] *)
Definition add_reports_field (e : Embed) (label : string)
    (reports : list (string * string)) : Embed :=
  if 0 <? length reports
  then add_field e label (Py.join_lines (report_lines reports))
  else e.

(** [Bot.__generate_embed] *)
Definition generate_embed (bot : Bot) (env : Env) (report : Report) : Outcome Embed :=
  let reportType := get_report_type report in
  let it := item report in
  let embed :=
    new_embed 15615027
      (Py.format "A {} by {} has been reported" [reportType; str_author (author it)])
      (get_report_url bot report)
      (isoformat env (created_utc it)) in
  (a <- author_of report ;;
   let embed :=
     set_author embed (name a)
       (Py.format "https://reddit.com/u/{}" [name a]) (icon_img a) in
   tc <- report_content env report reportType ;;
   let embed := add_field embed (Py.json_dumps (fst tc)) (Py.json_dumps (snd tc)) in
   let embed := add_reports_field embed "Mod Reports" (mod_reports it) in
   let embed := add_reports_field embed "User Reports" (user_reports it) in
   let account_age_str := naturaltime_since env (author_created_utc a) in
   let field_lines :=
     [ Py.format "Account created {}" [account_age_str];
       Py.format "Link karma: {}" [Py.str_int (link_karma a)];
       Py.format "Comment karma: {}" [Py.str_int (comment_karma a)] ] in
   let embed :=
     add_field embed
       (Py.format "{} posted by {}" [Py.title reportType; name a])
       (Py.join_lines field_lines) in
   let embed :=
     set_footer embed "Powered by PRAW and /u/b0xors"
       "https://upload.wikimedia.org/wikipedia/commons/thumb/c/c3/Python-logo-notext.svg/110px-Python-logo-notext.svg.png" in
   let embed := set_thumbnail embed "http://www.redditstatic.com/new-icon.png" in
   Ok embed)%out.

(** [Bot.__send_to_discord] *)
Definition send_to_discord (bot : Bot) (env : Env) (report : Report) : M unit :=
  (embed <- lift (generate_embed bot env report) ;;
   hook_send env (str report) embed)%bot.

(** The statement texts of [__report_exists] and [__save_report]. *)
Definition report_exists_query (identity : string) : string :=
  Py.format "SELECT exists(SELECT * FROM public.reports WHERE report='{}')" [identity].
Definition save_report_query (identity : string) : string :=
  Py.format "INSERT INTO public.reports(report) VALUES ('{}')" [identity].

(** [Bot.__report_exists]: [cursor.execute(text)] with the text alone, then
    [fetchone()[0]]. *)
Definition report_exists (report : Report) : M bool :=
  (rows <- cursor_execute (report_exists_query (str report)) ;;
   match rows with
   | row :: _ => ret row
   | [] => lift (Raise TypeError)
   end)%bot.

(** [Bot.__save_report] *)
Definition save_report (report : Report) : M unit :=
  (cursor_execute (save_report_query (str report)) ;;
   conn_commit)%bot.

(** The body of the [for report in ...] loop of [Bot.run]. *)
Definition run_item (bot : Bot) (env : Env) (report : Report) : M unit :=
  (print (Py.format "Checking report {}..." [str report]) ;;
   seen <- report_exists report ;;
   if (seen : bool)
   then print (Py.format "{} has already been reported" [str report])
   else
     save_report report ;;
     (if negb (truthy (skip_discord bot))
      then send_to_discord bot env report
      else ret tt) ;;
     print (Py.format "A {} by {} has been reported: <{}>"
              [get_report_type report; str_author (author (item report));
               get_report_url bot report]))%bot.

(** The loop of [Bot.run] over the reports the stream has yielded so far.
    Nothing in the loop catches an exception: the first item whose body
    does not return ends the loop. *)
Fixpoint run_loop (bot : Bot) (env : Env) (feed : list Report) : M unit :=
  match feed with
  | [] => ret tt
  | report :: rest => (run_item bot env report ;; run_loop bot env rest)%bot
  end.

(** [Bot.run] *)
Definition run (bot : Bot) (env : Env) (feed : list Report) : M unit :=
  (print "Starting stream for all reports..." ;;
   run_loop bot env feed)%bot.

(** ** Notions used in the statements *)

(** The text has no single quote. *)
Fixpoint quote_free (s : string) : bool :=
  match s with
  | EmptyString => true
  | String c rest => negb (Ascii.eqb c "'") && quote_free rest
  end.

(** The rows this session's queries see. *)
Definition visible (w : World) : list string := committed w ++ pending w.

(** Every call of [hook.send] was made for a report whose row is committed. *)
Definition dispatched_are_committed (w : World) : Prop :=
  forall tag embed, In (tag, embed) (dispatches w) -> In tag (committed w).

(** [nested_under s k c]: the comment [c] sits [k] levels deep under the
    submission [s] (level 1 is a top-level comment). *)
Inductive nested_under (s : Report) : nat -> Report -> Prop :=
| nested_top it body :
    nested_under s 1 (Comment it body s)
| nested_reply k it body p :
    nested_under s k p -> nested_under s (S k) (Comment it body p).

(** The name of the content field, the first field [__generate_embed] adds. *)
Definition content_field (e : Embed) : option (string * string) :=
  head (fields e).

(** The three lines the loop body prints. *)
Definition checking_line (r : Report) : string :=
  Py.format "Checking report {}..." [str r].
Definition already_line (r : Report) : string :=
  Py.format "{} has already been reported" [str r].
Definition reported_line (bot : Bot) (r : Report) : string :=
  Py.format "A {} by {} has been reported: <{}>"
    [get_report_type r; str_author (author (item r)); get_report_url bot r].

(** ** Sample data for the examples *)

Module Sample.

Definition alice : Redditor :=
  mkRedditor "alice" "https://example.org/alice.png" 1500000000 10 20.

Definition bot : Bot :=
  mkBot "https://discord.example/hook" "test" "cid" "secret" "token" "agent"
        "postgres://db" EnvFalse.

Definition quiet_bot : Bot :=
  mkBot "https://discord.example/hook" "test" "cid" "secret" "token" "agent"
        "postgres://db" (EnvStr "false").

Definition environ : gmap string string :=
  list_to_map
    [ ("WEBHOOK", "https://discord.example/hook"); ("SUBREDDIT", "test");
      ("CLIENT_ID", "cid"); ("CLIENT_SECRET", "secret");
      ("REFRESH_TOKEN", "token"); ("USER_AGENT", "agent");
      ("DATABASE_URL", "postgres://db") ].

Definition env_up : Env :=
  mkEnv (fun _ _ => true) (fun _ => true)
        (fun _ => "2020-09-13T12:26:40") (fun _ => "3 years ago").

Definition env_down : Env :=
  mkEnv (fun _ _ => false) (fun _ => true)
        (fun _ => "2020-09-13T12:26:40") (fun _ => "3 years ago").

Definition submission (ident t : string) : Report :=
  Submission
    (mkItem ident (Some alice) 1600000000
            (PermalinkAttr ("/r/test/comments/" +:+ ident +:+ "/t/")) [("spam", "mod1")] [])
    t "hello".

Definition comment (ident : string) (p : Report) : Report :=
  Comment
    (mkItem ident (Some alice) 1600000000
            (PermalinkMethod ("/comments/abc123//" +:+ ident)) [] [])
    "a reply" p.

(** A submission whose author's account is gone. *)
Definition orphan (ident : string) : Report :=
  Submission
    (mkItem ident None 1600000000
            (PermalinkAttr ("/r/test/comments/" +:+ ident +:+ "/t/")) [] [])
    "T" "hello".

Definition world0 : World := mkWorld [] [] [] [].

(** A text of 130 characters. *)
Definition long_text : string :=
  "0123456789012345678901234567890123456789012345678901234567890123456789012345678901234567890123456789012345678901234567890123456789".

End Sample.

(** ** Notions used in the further properties *)



(** The field a list of reports gives rise to: none when the list is empty. *)
Definition reports_section (label : string) (reports : list (string * string))
  : list (string * string) :=
  match reports with
  | [] => []
  | _ :: _ => [(label, Py.join_lines (report_lines reports))]
  end.

(** The comments the ancestor walk moves to, in order: the parent, its
    parent, and so on up to the top-level comment. *)
Fixpoint hops (c : Report) : list Report :=
  match c with
  | Comment _ _ p =>
      match p with
      | Comment _ _ _ => p :: hops p
      | Submission _ _ _ => []
      end
  | Submission _ _ _ => []
  end.


(** Two worlds that differ in the printed lines at most. *)
Definition same_effects (w1 w2 : World) : Prop :=
  committed w1 = committed w2
  /\ pending w1 = pending w2
  /\ dispatches w1 = dispatches w2.

(** * Properties *)

(** ** Text *)

Lemma length_append (a b : string) :
  String.length (a +:+ b) = String.length a + String.length b.
Proof. induction a as [|c a IH]; simpl; [reflexivity | now rewrite IH]. Qed.

Lemma append_empty_r (s : string) : s +:+ EmptyString = s.
Proof. induction s as [|c s IH]; simpl; [reflexivity | now rewrite IH]. Qed.

Lemma slice_to_split (n : nat) (s : string) :
  n <= String.length s ->
  exists rest, s = Py.slice_to n s +:+ rest /\ String.length (Py.slice_to n s) = n.
Proof.
  unfold Py.slice_to. revert s.
  induction n as [|n IH]; intros s Hn.
  - exists s. destruct s; simpl; split; reflexivity.
  - destruct s as [|c s]; simpl in Hn; [lia|].
    destruct (IH s) as [rest [Hs Hl]]; [lia|].
    exists rest. split.
    + change (String c s = String c (substring 0 n s +:+ rest)). now f_equal.
    + simpl. now f_equal.
Qed.

Lemma strip_prefix_app (p s : string) : strip_prefix p (p +:+ s) = Some s.
Proof.
  induction p as [|c p IH]; simpl; [now destruct s|].
  now rewrite Ascii.eqb_refl.
Qed.

Lemma report_exists_query_text (identity : string) :
  report_exists_query identity = select_head +:+ identity +:+ "')".
Proof. reflexivity. Qed.

Lemma save_report_query_text (identity : string) :
  save_report_query identity = insert_head +:+ identity +:+ "')".
Proof. reflexivity. Qed.

(** Scanning the text that follows the opening quote of either statement:
    a quote-free identity is read back whole and leaves the closing
    parenthesis; otherwise the constant ends early and more text is left. *)
Lemma scan_literal_identity (identity : string) :
  exists v after,
    scan_literal (identity +:+ "')") = Some (v, after) /\
    if quote_free identity
    then v = identity /\ after = ")"
    else 1 < String.length after.
Proof.
  induction identity as [|c s IH]; simpl.
  - exists EmptyString, ")". auto.
  - destruct (Ascii.eqb c "'") eqn:Hc; simpl.
    + exists EmptyString, (s +:+ "')"). split; [reflexivity|].
      rewrite length_append. simpl. lia.
    + destruct IH as [v [after [Hs Hq]]]. rewrite Hs.
      exists (String c v), after. split; [reflexivity|].
      destruct (quote_free s); [|exact Hq].
      destruct Hq as [-> ->]. auto.
Qed.

Lemma parse_report_exists_query (identity : string) :
  parse_statement (report_exists_query identity)
  = if quote_free identity then Some (SelectExists identity) else None.
Proof.
  rewrite report_exists_query_text. unfold parse_statement.
  rewrite strip_prefix_app.
  destruct (scan_literal_identity identity) as [v [after [Hs Hq]]].
  rewrite Hs. destruct (quote_free identity).
  - destruct Hq as [-> ->]. reflexivity.
  - destruct after as [|a [|b after]]; simpl in Hq; try lia.
    simpl. now destruct (Ascii.eqb a ")").
Qed.

Lemma parse_save_report_query (identity : string) :
  parse_statement (save_report_query identity)
  = if quote_free identity then Some (InsertReport identity) else None.
Proof.
  rewrite save_report_query_text. unfold parse_statement.
  replace (strip_prefix select_head (insert_head +:+ identity +:+ "')"))
    with (@None string) by reflexivity.
  rewrite strip_prefix_app.
  destruct (scan_literal_identity identity) as [v [after [Hs Hq]]].
  rewrite Hs. destruct (quote_free identity).
  - destruct Hq as [-> ->]. reflexivity.
  - destruct after as [|a [|b after]]; simpl in Hq; try lia.
    simpl. now destruct (Ascii.eqb a ")").
Qed.

(** ** The statement texts (claim C2) *)

(** C2, as stated, fails: the identity is not a parameter of a fixed
    statement but part of the statement text.  For the identity [a'b] the
    text holds the identity verbatim, the string constant the server reads
    after the opening quote is [a], the text [b')] follows it, and neither
    text is one of the two statements the bot means to issue. *)
Lemma identity_with_quote_alters_statement :
  report_exists_query "a'b"
    = "SELECT exists(SELECT * FROM public.reports WHERE report='a'b')"
  /\ save_report_query "a'b"
    = "INSERT INTO public.reports(report) VALUES ('a'b')"
  /\ strip_prefix select_head (report_exists_query "a'b") = Some "a'b')"
  /\ strip_prefix insert_head (save_report_query "a'b") = Some "a'b')"
  /\ scan_literal "a'b')" = Some ("a", "b')")
  /\ parse_statement (report_exists_query "a'b") = None
  /\ parse_statement (save_report_query "a'b") = None.
Proof. repeat split; reflexivity. Qed.

(** C2, amended: both methods build the statement text by placing the
    identity between single quotes inside a fixed template and pass that
    text alone to [cursor.execute].  The text is the intended statement,
    with the identity as its string constant, exactly when the identity has
    no single quote. *)
Theorem statement_text_interpolates_identity (identity : string) :
  report_exists_query identity
    = "SELECT exists(SELECT * FROM public.reports WHERE report='" +:+ identity +:+ "')"
  /\ save_report_query identity
    = "INSERT INTO public.reports(report) VALUES ('" +:+ identity +:+ "')"
  /\ parse_statement (report_exists_query identity)
    = (if quote_free identity then Some (SelectExists identity) else None)
  /\ parse_statement (save_report_query identity)
    = (if quote_free identity then Some (InsertReport identity) else None).
Proof.
  repeat split.
  - apply parse_report_exists_query.
  - apply parse_save_report_query.
Qed.

(** ** The excerpt (claim C5) *)

(** C5: a text of at most 120 characters is its own excerpt; a longer text
    is cut to its first 120 characters followed by [...], 123 characters in
    all. *)
Theorem excerpt_truncation (text : string) :
  (String.length text <= 120 -> excerpt text = text)
  /\ (120 < String.length text ->
      exists first rest,
        text = first +:+ rest
        /\ String.length first = 120
        /\ excerpt text = first +:+ "..."
        /\ String.length (excerpt text) = 123).
Proof.
  unfold excerpt. split; intros Hlen.
  - destruct (120 <? String.length text) eqn:Hcmp; [|reflexivity].
    apply Nat.ltb_lt in Hcmp. lia.
  - destruct (slice_to_split 120 text) as [rest [Hsplit Hfirst]]; [lia|].
    exists (Py.slice_to 120 text), rest.
    apply Nat.ltb_lt in Hlen. rewrite Hlen.
    repeat split; try assumption.
    rewrite length_append, Hfirst. reflexivity.
Qed.

Lemma excerpt_truncation_witness :
  excerpt "hello" = "hello"
  /\ exists first rest,
       Sample.long_text = first +:+ rest
       /\ String.length first = 120
       /\ excerpt Sample.long_text = first +:+ "..."
       /\ String.length (excerpt Sample.long_text) = 123.
Proof.
  split.
  - apply (proj1 (excerpt_truncation "hello")). simpl. lia.
  - apply (proj2 (excerpt_truncation Sample.long_text)). vm_compute. lia.
Defined.

(** ** The permalink (claim C8) *)

(** C8, as stated, fails.  The bot watches the community [mod] (all the
    communities the account moderates) and the report's [permalink] is a
    plain attribute: the URL is the domain followed by the attribute, and
    the community name is not put in. *)
Lemma url_of_attribute_permalink_omits_community :
  let bot := mkBot "https://discord.example/hook" "mod" "cid" "secret" "token"
                   "agent" "postgres://db" EnvFalse in
  let report :=
    Submission (mkItem "abc123" (Some Sample.alice) 1600000000
                       (PermalinkAttr "/r/pics/comments/abc123/t/") [] [])
               "T" "hello" in
  get_report_url bot report = "https://www.reddit.com/r/pics/comments/abc123/t/"
  /\ get_report_url bot report
     <> "https://www.reddit.com/r/" +:+ subreddit bot +:+ "/r/pics/comments/abc123/t/"
  /\ String.prefix ("https://www.reddit.com/r/" +:+ subreddit bot)
                   (get_report_url bot report) = false.
Proof.
  cbv zeta. split; [reflexivity|]. split; [|reflexivity].
  intros Heq. vm_compute in Heq. discriminate Heq.
Qed.

(** C8, amended: when [report.permalink] is a bound method the URL is
    [https://www.reddit.com/r/], the community name and the result of
    [permalink(fast=True)]; when it is a plain attribute the URL is
    [https://www.reddit.com] followed by the attribute, without the
    community name. *)
Theorem report_url_by_permalink_kind (bot : Bot) (report : Report) :
  get_report_url bot report
  = match permalink (item report) with
    | PermalinkMethod fast_path =>
        "https://www.reddit.com/r/" +:+ subreddit bot +:+ fast_path
    | PermalinkAttr path => "https://www.reddit.com" +:+ path
    end.
Proof.
  unfold get_report_url.
  destruct (permalink (item report)) as [path|fast_path].
  - change (Py.format "https://www.reddit.com{}" [path])
      with ("https://www.reddit.com" +:+ (path +:+ EmptyString)).
    now rewrite append_empty_r.
  - change (Py.format "https://www.reddit.com/r/{}{}" [subreddit bot; fast_path])
      with ("https://www.reddit.com/r/"
              +:+ (subreddit bot +:+ (fast_path +:+ EmptyString))).
    now rewrite append_empty_r.
Qed.

(** ** Classification (claim C9) *)

(** C9: a report is classified [submission] when it is a [Submission] and
    [comment] in every other case, so the renderer takes its first or its
    second branch and never the third. *)
Theorem report_type_is_total (report : Report) :
  get_report_type report
    = (if isinstance_Submission report then "submission" else "comment")
  /\ content_branch (get_report_type report)
    = (if isinstance_Submission report then SubmissionBranch else CommentBranch)
  /\ content_branch (get_report_type report) <> UnknownBranch.
Proof.
  unfold get_report_type.
  destruct (isinstance_Submission report); repeat split; discriminate.
Qed.

(** ** The suppression flag (claim C10) *)

(** C10: [SKIP_DISCORD] is kept as the raw text of the variable and tested
    for truth only: the bot dispatches ([not self.skip_discord]) exactly
    when the variable is unset or empty, so every other text, [false] and
    [0] included, suppresses the notifications. *)
Theorem skip_discord_is_truthiness (environ : gmap string string) (bot : Bot) :
  init environ = Some bot ->
  skip_discord bot = environ_get environ "SKIP_DISCORD"
  /\ (negb (truthy (skip_discord bot)) = true
      <-> environ !! "SKIP_DISCORD" = None
          \/ environ !! "SKIP_DISCORD" = Some EmptyString)
  /\ (forall value, environ !! "SKIP_DISCORD" = Some value ->
      value <> EmptyString -> negb (truthy (skip_discord bot)) = false).
Proof.
  unfold init. intros Hinit.
  repeat match type of Hinit with
         | match ?v with _ => _ end = _ => destruct v; try discriminate
         end.
  injection Hinit as <-. simpl. unfold environ_get.
  destruct (environ !! "SKIP_DISCORD") as [value|] eqn:Hvar; simpl.
  - split; [reflexivity|]. split.
    + rewrite negb_involutive. split.
      * intros Heq. apply String.eqb_eq in Heq. subst. now right.
      * intros [Hnone | Hsome]; [discriminate|].
        injection Hsome as ->. reflexivity.
    + intros v [= <-] Hne. rewrite negb_involutive.
      now apply String.eqb_neq.
  - split; [reflexivity|]. split.
    + split; [now left | reflexivity].
    + intros v Hv. discriminate.
Qed.

Lemma skip_discord_is_truthiness_witness :
  exists bot,
    init (<["SKIP_DISCORD" := "false"]> Sample.environ) = Some bot
    /\ negb (truthy (skip_discord bot)) = false.
Proof.
  exists (mkBot "https://discord.example/hook" "test" "cid" "secret" "token"
                "agent" "postgres://db" (EnvStr "false")).
  assert (Hinit : init (<["SKIP_DISCORD" := "false"]> Sample.environ)
                  = Some (mkBot "https://discord.example/hook" "test" "cid"
                                "secret" "token" "agent" "postgres://db"
                                (EnvStr "false"))) by (vm_compute; reflexivity).
  split; [exact Hinit|].
  apply (proj2 (proj2 (skip_discord_is_truthiness _ _ Hinit)) "false").
  - vm_compute. reflexivity.
  - discriminate.
Defined.

(** ** The loop body, case by case *)

Lemma run_item_eq (bot : Bot) (env : Env) (r : Report) (w : World) :
  run_item bot env r w =
  let out1 := stdout w ++ [checking_line r] in
  if quote_free (str r) then
    if existsb (String.eqb (str r)) (visible w)
    then (Ok tt, mkWorld (committed w) (pending w) (dispatches w)
                         (out1 ++ [already_line r]))
    else
      let rows := committed w ++ pending w ++ [str r] in
      if negb (truthy (skip_discord bot)) then
        match generate_embed bot env r with
        | Ok e =>
            let sent := dispatches w ++ [(str r, e)] in
            if webhook_accepts env (map snd (dispatches w)) e
            then (Ok tt, mkWorld rows [] sent (out1 ++ [reported_line bot r]))
            else (Raise WebhookError, mkWorld rows [] sent out1)
        | Raise x => (Raise x, mkWorld rows [] (dispatches w) out1)
        | Unmodelled => (Unmodelled, mkWorld rows [] (dispatches w) out1)
        end
      else (Ok tt, mkWorld rows [] (dispatches w) (out1 ++ [reported_line bot r]))
  else (Unmodelled, mkWorld (committed w) (pending w) (dispatches w) out1).
Proof.
  unfold run_item, report_exists, save_report, send_to_discord, bind, print,
    cursor_execute, conn_commit, hook_send, lift, ret, visible.
  rewrite parse_report_exists_query, parse_save_report_query.
  destruct (quote_free (str r)); [|reflexivity].
  cbn [committed pending dispatches stdout].
  destruct (existsb (String.eqb (str r)) (committed w ++ pending w)); [reflexivity|].
  destruct (negb (truthy (skip_discord bot))); [|reflexivity].
  destruct (generate_embed bot env r) as [e|x|]; try reflexivity.
  cbn [committed pending dispatches stdout].
  destruct (webhook_accepts env (map snd (dispatches w)) e); reflexivity.
Qed.

Lemma run_loop_app (bot : Bot) (env : Env) (before after : list Report) (w : World) :
  run_loop bot env (before ++ after) w =
  match run_loop bot env before w with
  | (Ok _, w1) => run_loop bot env after w1
  | (Raise e, w1) => (Raise e, w1)
  | (Unmodelled, w1) => (Unmodelled, w1)
  end.
Proof.
  revert w. induction before as [|r before IH]; intros w; simpl.
  - reflexivity.
  - unfold bind. destruct (run_item bot env r w) as [[[]|e|] w1]; auto.
Qed.

Lemma run_eq (bot : Bot) (env : Env) (feed : list Report) (w : World) :
  run bot env feed w =
  run_loop bot env feed
    (mkWorld (committed w) (pending w) (dispatches w)
             (stdout w ++ ["Starting stream for all reports..."])).
Proof. reflexivity. Qed.

(** What one pass of the loop body leaves behind, whatever its outcome:
    committed rows are only added, visible rows stay visible, and the calls
    of [hook.send] stay covered by committed rows. *)
Lemma run_item_keeps (bot : Bot) (env : Env) (r : Report) (w : World) :
  let w' := snd (run_item bot env r w) in
  (exists extra, committed w' = committed w ++ extra)
  /\ (forall v, In v (visible w) -> In v (visible w'))
  /\ (dispatched_are_committed w -> dispatched_are_committed w').
Proof.
  rewrite run_item_eq. unfold visible, dispatched_are_committed.
  destruct (quote_free (str r)); cbn zeta.
  2:{ simpl. split; [exists []; now rewrite app_nil_r | auto]. }
  destruct (existsb (String.eqb (str r)) (committed w ++ pending w)).
  { simpl. split; [exists []; now rewrite app_nil_r | auto]. }
  assert (Hrows : forall v, In v (committed w ++ pending w) ->
                            In v ((committed w ++ pending w ++ [str r]) ++ [])).
  { intros v Hv. rewrite app_nil_r, app_assoc. apply in_or_app. now left. }
  assert (Hsent : forall e, dispatched_are_committed w ->
            forall tag embed, In (tag, embed) (dispatches w ++ [(str r, e)]) ->
                              In tag (committed w ++ pending w ++ [str r])).
  { intros e Hinv tag embed Hin. apply in_app_or in Hin as [Hin | [[= <- <-] | []]].
    - apply in_or_app. left. eapply Hinv, Hin.
    - rewrite app_assoc. apply in_or_app. right. now left. }
  assert (Hold : dispatched_are_committed w ->
            forall tag embed, In (tag, embed) (dispatches w) ->
                              In tag (committed w ++ pending w ++ [str r])).
  { intros Hinv tag embed Hin. apply in_or_app. left. eapply Hinv, Hin. }
  destruct (negb (truthy (skip_discord bot))).
  - destruct (generate_embed bot env r) as [e|x|].
    + destruct (webhook_accepts env (map snd (dispatches w)) e); simpl;
        (split; [eexists; reflexivity | split; [exact Hrows | apply Hsent]]).
    + simpl. split; [eexists; reflexivity | split; [exact Hrows | exact Hold]].
    + simpl. split; [eexists; reflexivity | split; [exact Hrows | exact Hold]].
  - simpl. split; [eexists; reflexivity | split; [exact Hrows | exact Hold]].
Qed.

Lemma run_loop_keeps (bot : Bot) (env : Env) (feed : list Report) (w : World) :
  let w' := snd (run_loop bot env feed w) in
  (exists extra, committed w' = committed w ++ extra)
  /\ (forall v, In v (visible w) -> In v (visible w'))
  /\ (dispatched_are_committed w -> dispatched_are_committed w').
Proof.
  revert w. induction feed as [|r feed IH]; intros w; cbn zeta.
  - simpl. split; [exists []; now rewrite app_nil_r | auto].
  - destruct (run_item_keeps bot env r w) as [[x1 Hc1] [Hv1 Hi1]].
    simpl. unfold bind.
    destruct (run_item bot env r w) as [[[]|e|] w1]; simpl in *.
    + destruct (IH w1) as [[x2 Hc2] [Hv2 Hi2]].
      split; [|split].
      * exists (x1 ++ x2). rewrite Hc2, Hc1. now rewrite app_assoc.
      * auto.
      * auto.
    + split; [eauto | auto].
    + split; [eauto | auto].
Qed.

(** A pass that returns has left the report's row visible. *)
Lemma run_item_ok_visible (bot : Bot) (env : Env) (r : Report) (w w' : World) :
  run_item bot env r w = (Ok tt, w') ->
  quote_free (str r) = true /\ In (str r) (visible w').
Proof.
  rewrite run_item_eq. unfold visible. cbn zeta.
  destruct (quote_free (str r)); [|discriminate].
  destruct (existsb (String.eqb (str r)) (committed w ++ pending w)) eqn:Hseen.
  - intros [= <-]. split; [reflexivity|]. simpl.
    apply existsb_exists in Hseen as [v [Hv Heq]].
    apply String.eqb_eq in Heq. now subst.
  - assert (Hin : In (str r) ((committed w ++ pending w ++ [str r]) ++ [])).
    { rewrite app_nil_r, app_assoc. apply in_or_app. right. now left. }
    destruct (negb (truthy (skip_discord bot))).
    + destruct (generate_embed bot env r) as [e|x|]; try discriminate.
      destruct (webhook_accepts env (map snd (dispatches w)) e); try discriminate.
      intros [= <-]. auto.
    + intros [= <-]. auto.
Qed.

(** ** Failures inside the loop (claim C1) *)

(** C1, as stated, fails: the loop has no handler.  With a webhook that
    rejects the document, the first of two new reports ends the run with
    the exception; its row is committed, the failure is not printed, and
    the second report is never looked at.  The same happens when rendering
    fails because the author of the first report is gone. *)
Lemma failed_item_ends_the_run :
  let r1 := Sample.submission "r1" "T" in
  let r2 := Sample.submission "r2" "T" in
  let end1 := run Sample.bot Sample.env_down [r1; r2] Sample.world0 in
  let end2 := run Sample.bot Sample.env_up [Sample.orphan "r1"; r2] Sample.world0 in
  fst end1 = Raise WebhookError
  /\ committed (snd end1) = ["r1"]
  /\ stdout (snd end1)
     = ["Starting stream for all reports..."; "Checking report r1..."]
  /\ fst end2 = Raise AttributeError
  /\ committed (snd end2) = ["r1"]
  /\ dispatches (snd end2) = []
  /\ stdout (snd end2)
     = ["Starting stream for all reports..."; "Checking report r1..."].
Proof. cbv zeta. repeat split; vm_compute; reflexivity. Qed.

(** C1, amended: a failure while an item is processed is neither caught nor
    printed by the loop.  It leaves [run] as an exception, in the world the
    failing item left behind: after its [Checking report] line nothing more
    is printed, its row stays committed, and no later item is processed. *)
Theorem item_failure_propagates
    (bot : Bot) (env : Env) (before after : list Report) (report : Report)
    (w w1 w2 : World) (e : Exn) :
  run bot env before w = (Ok tt, w1) ->
  run_item bot env report w1 = (Raise e, w2) ->
  run bot env (before ++ report :: after) w = (Raise e, w2)
  /\ stdout w2 = stdout w1 ++ [checking_line report]
  /\ In (str report) (committed w2).
Proof.
  rewrite !run_eq. intros Hbefore Hitem.
  split.
  - rewrite run_loop_app, Hbefore. simpl. unfold bind. now rewrite Hitem.
  - revert Hitem. rewrite run_item_eq. cbn zeta.
    destruct (quote_free (str report)); [|discriminate].
    destruct (existsb _ _); [discriminate|].
    assert (Hin : In (str report) (committed w1 ++ pending w1 ++ [str report])).
    { rewrite app_assoc. apply in_or_app. right. now left. }
    destruct (negb (truthy (skip_discord bot))); [|discriminate].
    destruct (generate_embed bot env report) as [emb|x|]; try discriminate.
    + destruct (webhook_accepts env _ emb); [discriminate|].
      intros [= <- <-]. auto.
    + intros [= <- <-]. auto.
Qed.

Lemma item_failure_propagates_witness :
  exists w2,
    run Sample.bot Sample.env_down
        ([Sample.submission "r0" "T"] ++ Sample.submission "r1" "T"
           :: [Sample.submission "r2" "T"]) (mkWorld ["r0"] [] [] [])
    = (Raise WebhookError, w2)
    /\ In "r1" (committed w2).
Proof.
  eexists.
  pose proof (item_failure_propagates Sample.bot Sample.env_down
                [Sample.submission "r0" "T"] [Sample.submission "r2" "T"]
                (Sample.submission "r1" "T") (mkWorld ["r0"] [] [] [])
                _ _ WebhookError
                ltac:(vm_compute; reflexivity) ltac:(vm_compute; reflexivity))
    as [Hrun [_ Hin]].
  split; [exact Hrun | exact Hin].
Defined.

(** ** A report seen twice (claim C3) *)

(** C3: when the loop has processed a report and later meets a report with
    the same identity, the second pass inserts no row and sends nothing: it
    leaves the rows and the calls of [hook.send] as they were and only
    prints its two lines. *)
Theorem second_occurrence_changes_only_the_log
    (bot : Bot) (env : Env) (before between : list Report)
    (first second : Report) (w w2 : World) :
  str first = str second ->
  run bot env (before ++ first :: between) w = (Ok tt, w2) ->
  run_item bot env second w2
  = (Ok tt, mkWorld (committed w2) (pending w2) (dispatches w2)
                    (stdout w2 ++ [checking_line second; already_line second])).
Proof.
  rewrite run_eq. intros Hid Hrun.
  rewrite run_loop_app in Hrun.
  destruct (run_loop bot env before _) as [[[]|x|] wa]; try discriminate.
  simpl in Hrun. unfold bind in Hrun.
  destruct (run_item bot env first wa) as [[[]|x|] wb] eqn:Hfirst; try discriminate.
  apply run_item_ok_visible in Hfirst as [Hquote Hseen].
  assert (Hseen2 : In (str second) (visible w2)).
  { rewrite <- Hid.
    pose proof (run_loop_keeps bot env between wb) as [_ [Hvis _]].
    rewrite Hrun in Hvis. now apply Hvis. }
  rewrite run_item_eq. cbn zeta. rewrite <- Hid, Hquote.
  replace (existsb (String.eqb (str first)) (visible w2)) with true.
  - rewrite <- app_assoc. reflexivity.
  - symmetry. apply existsb_exists. exists (str first).
    rewrite Hid. split; [exact Hseen2 | apply String.eqb_refl].
Qed.

Lemma second_occurrence_changes_only_the_log_witness :
  exists w2,
    run Sample.bot Sample.env_up
        ([] ++ Sample.submission "r1" "T" :: [Sample.submission "r2" "T"])
        Sample.world0 = (Ok tt, w2)
    /\ run_item Sample.bot Sample.env_up (Sample.submission "r1" "again") w2
       = (Ok tt, mkWorld (committed w2) (pending w2) (dispatches w2)
                         (stdout w2 ++ ["Checking report r1...";
                                        "r1 has already been reported"])).
Proof.
  eexists. split.
  - vm_compute. reflexivity.
  - apply (second_occurrence_changes_only_the_log Sample.bot Sample.env_up
             [] [Sample.submission "r2" "T"]
             (Sample.submission "r1" "T") (Sample.submission "r1" "again")
             Sample.world0).
    + reflexivity.
    + vm_compute. reflexivity.
Defined.

(** ** Commit before dispatch (claim C4) *)

(** C4: the row of a new report is inserted and committed before
    [hook.send] is called for it, and nothing that follows takes a committed
    row away.  Whatever ends the run (the end of the feed, a rejected
    document, any other exception), every call of [hook.send] made so far
    was for a report whose row is committed, and the rows committed at the
    start are still there. *)
Theorem dispatch_follows_commit
    (bot : Bot) (env : Env) (feed : list Report) (w : World) :
  dispatched_are_committed w ->
  dispatched_are_committed (snd (run bot env feed w))
  /\ exists added, committed (snd (run bot env feed w)) = committed w ++ added.
Proof.
  intros Hinv. rewrite run_eq.
  pose proof (run_loop_keeps bot env feed
                (mkWorld (committed w) (pending w) (dispatches w)
                         (stdout w ++ ["Starting stream for all reports..."])))
    as [Hadd [_ Hkeep]].
  split; [apply Hkeep, Hinv | exact Hadd].
Qed.

Lemma dispatch_follows_commit_witness :
  dispatched_are_committed
    (snd (run Sample.bot Sample.env_down [Sample.submission "r1" "T"] Sample.world0))
  /\ fst (run Sample.bot Sample.env_down [Sample.submission "r1" "T"] Sample.world0)
     = Raise WebhookError
  /\ map fst (dispatches
       (snd (run Sample.bot Sample.env_down [Sample.submission "r1" "T"] Sample.world0)))
     = ["r1"].
Proof.
  split.
  - apply (dispatch_follows_commit Sample.bot Sample.env_down
             [Sample.submission "r1" "T"] Sample.world0).
    intros tag embed Hin. destruct Hin.
  - split; vm_compute; reflexivity.
Defined.

(** ** Suppressed notifications (claim C7) *)

Lemma run_item_skipping (bot : Bot) (env : Env) (r : Report) (w : World) :
  truthy (skip_discord bot) = true ->
  let w' := snd (run_item bot env r w) in
  dispatches w' = dispatches w
  /\ (quote_free (str r) = true ->
      fst (run_item bot env r w) = Ok tt
      /\ ((committed w' = committed w /\ pending w' = pending w
           /\ In (str r) (visible w))
          \/ (pending w' = [] /\ In (str r) (committed w')))).
Proof.
  intros Hskip. rewrite run_item_eq. cbn zeta. rewrite Hskip. simpl negb.
  destruct (quote_free (str r)); [|split; [reflexivity | discriminate]].
  destruct (existsb (String.eqb (str r)) (visible w)) eqn:Hseen; simpl.
  - split; [reflexivity|]. intros _. split; [reflexivity|]. left.
    repeat split.
    apply existsb_exists in Hseen as [v [Hv Heq]].
    apply String.eqb_eq in Heq. now subst.
  - split; [reflexivity|]. intros _. split; [reflexivity|]. right.
    split; [reflexivity|].
    rewrite app_assoc. apply in_or_app. right. now left.
Qed.

Lemma run_loop_skipping (bot : Bot) (env : Env) (feed : list Report) (w : World) :
  truthy (skip_discord bot) = true ->
  dispatches (snd (run_loop bot env feed w)) = dispatches w
  /\ (Forall (fun r => quote_free (str r) = true) feed ->
      fst (run_loop bot env feed w) = Ok tt
      /\ forall r, In r feed -> ~ In (str r) (visible w) ->
                   In (str r) (committed (snd (run_loop bot env feed w)))).
Proof.
  intros Hskip. revert w.
  induction feed as [|r feed IH]; intros w.
  - simpl. split; [reflexivity|]. intros _. split; [reflexivity|]. intros r [].
  - destruct (run_item_skipping bot env r w Hskip) as [Hsent Hitem].
    pose proof (run_loop_keeps bot env feed (snd (run_item bot env r w)))
      as [[added Hadded] _].
    simpl. unfold bind.
    destruct (run_item bot env r w) as [[[]|e|] w1]; simpl in *.
    + destruct (IH w1) as [Hsent1 Hfeed1]. split; [congruence|].
      intros Hall. inversion Hall as [|r0 feed0 Hr Hrest]; subst.
      destruct (Hfeed1 Hrest) as [Hok Hrows]. split; [exact Hok|].
      destruct (Hitem Hr) as [_ Hw1].
      intros r' [<- | Hin] Hnew.
      * destruct Hw1 as [[_ [_ Hold]] | [_ Hnow]]; [contradiction|].
        rewrite Hadded. apply in_or_app. now left.
      * destruct (in_dec string_dec (str r') (visible w1)) as [Hvis | Hnot];
          [|now apply Hrows].
        unfold visible in Hvis, Hnew.
        destruct Hw1 as [[Hc [Hp _]] | [Hp _]].
        -- rewrite Hc, Hp in Hvis. contradiction.
        -- rewrite Hp, app_nil_r in Hvis.
           rewrite Hadded. apply in_or_app. now left.
    + split; [exact Hsent|]. intros Hall. inversion Hall as [|r0 feed0 Hr Hrest].
      destruct (Hitem Hr) as [Hbad _]. discriminate.
    + split; [exact Hsent|]. intros Hall. inversion Hall as [|r0 feed0 Hr Hrest].
      destruct (Hitem Hr) as [Hbad _]. discriminate.
Qed.

(** C7: with the suppression flag set, [hook.send] is never called, on any
    feed and whatever the run meets; and on a feed of identities without a
    quote the run goes through the whole feed and commits a row for every
    report that was not in the table. *)
Theorem suppressed_run_persists_without_dispatch
    (bot : Bot) (env : Env) (feed : list Report) (w : World) :
  truthy (skip_discord bot) = true ->
  dispatches (snd (run bot env feed w)) = dispatches w
  /\ (Forall (fun r => quote_free (str r) = true) feed ->
      fst (run bot env feed w) = Ok tt
      /\ forall r, In r feed -> ~ In (str r) (visible w) ->
                   In (str r) (committed (snd (run bot env feed w)))).
Proof.
  intros Hskip. rewrite run_eq.
  exact (run_loop_skipping bot env feed
           (mkWorld (committed w) (pending w) (dispatches w)
                    (stdout w ++ ["Starting stream for all reports..."])) Hskip).
Qed.

Lemma suppressed_run_persists_without_dispatch_witness :
  let feed := [Sample.submission "r1" "T";
               Sample.comment "c1" (Sample.submission "r1" "T")] in
  dispatches (snd (run Sample.quiet_bot Sample.env_up feed Sample.world0)) = []
  /\ fst (run Sample.quiet_bot Sample.env_up feed Sample.world0) = Ok tt
  /\ In "c1" (committed (snd (run Sample.quiet_bot Sample.env_up feed Sample.world0))).
Proof.
  cbv zeta.
  pose proof (suppressed_run_persists_without_dispatch
                Sample.quiet_bot Sample.env_up
                [Sample.submission "r1" "T";
                 Sample.comment "c1" (Sample.submission "r1" "T")]
                Sample.world0 ltac:(reflexivity)) as [Hsent Hrows].
  split; [exact Hsent|].
  destruct Hrows as [Hok Hall].
  - repeat constructor.
  - split; [exact Hok|].
    apply (Hall (Sample.comment "c1" (Sample.submission "r1" "T"))).
    + right. left. reflexivity.
    + intros [].
Defined.

(** ** The title of a comment's submission (claim C6) *)

Lemma nested_is_comment (s : Report) (k : nat) (c : Report) :
  nested_under s k c -> isinstance_Submission c = false /\ 1 <= k.
Proof. intros H. destruct H; simpl; split; lia || reflexivity. Qed.

(** With every refresh succeeding, the walk from a comment nested under a
    submission ends on a top-level comment of that submission, for every
    starting value of the counter. *)
Lemma top_level_comment_nested
    (env : Env) (its : Item) (T selftext : string) (k : nat) (c : Report) :
  (forall a, refresh_ok env a = true) ->
  nested_under (Submission its T selftext) k c ->
  forall n, exists it body,
    top_level_comment env c n = Ok (Comment it body (Submission its T selftext)).
Proof.
  intros Hrefresh Hnested.
  induction Hnested as [it body | k it body p Hp IH]; intros n.
  - exists it, body. reflexivity.
  - destruct (nested_is_comment _ _ _ Hp) as [Hcomment _].
    destruct p as [pit pt ps | pit pbody pp]; [discriminate|].
    destruct (IH (n + 1)) as [it' [body' Hwalk]].
    exists it', body'.
    change (top_level_comment env (Comment it body (Comment pit pbody pp)) n)
      with (obind (if n mod 9 =? 0 then refresh env (Comment pit pbody pp) else Ok tt)
                  (fun _ => top_level_comment env (Comment pit pbody pp) (n + 1))).
    unfold refresh. rewrite Hrefresh.
    destruct (n mod 9 =? 0); exact Hwalk.
Qed.

Lemma get_submission_from_comment_nested
    (env : Env) (its : Item) (T selftext : string) (k : nat) (c : Report) :
  (forall a, refresh_ok env a = true) ->
  nested_under (Submission its T selftext) k c ->
  get_submission_from_comment env c = Ok (Submission its T selftext).
Proof.
  intros Hrefresh Hnested. unfold get_submission_from_comment.
  destruct (top_level_comment_nested env its T selftext k c Hrefresh Hnested 0)
    as [it [body ->]].
  reflexivity.
Qed.

Lemma content_field_add_field (e : Embed) (n v : string) (f : string * string) :
  content_field e = Some f -> content_field (add_field e n v) = Some f.
Proof.
  unfold content_field, add_field. simpl.
  destruct (fields e); [discriminate | auto].
Qed.

Lemma content_field_add_reports_field
    (e : Embed) (label : string) (reports : list (string * string))
    (f : string * string) :
  content_field e = Some f ->
  content_field (add_reports_field e label reports) = Some f.
Proof.
  unfold add_reports_field. intros H.
  destruct (0 <? length reports); [now apply content_field_add_field | exact H].
Qed.

(** C6, as stated, fails: the name of the content field is not the title
    but [json.dumps] of the title.  For a comment two levels deep under a
    submission titled [T] the name is the three characters quote, T, quote. *)
Lemma content_title_is_json_encoded :
  let s := Sample.submission "abc123" "T" in
  let c := Sample.comment "c2" (Sample.comment "c1" s) in
  nested_under s 2 c
  /\ exists e,
       generate_embed Sample.bot Sample.env_up c = Ok e
       /\ option_map fst (content_field e)
          = Some (String Py.dquote (String "T" (String Py.dquote EmptyString)))
       /\ option_map fst (content_field e) <> Some "T".
Proof.
  cbv zeta. split.
  - apply nested_reply, nested_top.
  - eexists. split; [vm_compute; reflexivity|].
    split; [reflexivity | discriminate].
Qed.

(** C6, amended: for a comment nested [k >= 1] levels deep under a
    submission titled [T], whose author exists and whose ancestors can be
    refreshed, the walk up the chain returns that submission and the name of
    the content field of the rendered document is [json.dumps(T)], whatever
    [k] is; its value is [json.dumps] of the excerpt of the comment's own
    body. *)
Theorem comment_title_is_root_submission_title
    (bot : Bot) (env : Env) (its : Item) (T selftext : string)
    (k : nat) (c : Report) (a : Redditor) :
  (forall x, refresh_ok env x = true) ->
  author (item c) = Some a ->
  nested_under (Submission its T selftext) k c ->
  get_submission_from_comment env c = Ok (Submission its T selftext)
  /\ exists e body,
       body_of c = Ok body
       /\ generate_embed bot env c = Ok e
       /\ content_field e = Some (Py.json_dumps T, Py.json_dumps (excerpt body)).
Proof.
  intros Hrefresh Hauthor Hnested.
  pose proof (get_submission_from_comment_nested env its T selftext k c
                Hrefresh Hnested) as Hroot.
  split; [exact Hroot|].
  destruct (nested_is_comment _ _ _ Hnested) as [Hcomment _].
  destruct c as [cit ct cs | cit body p]; [discriminate|].
  simpl in Hauthor.
  unfold generate_embed, author_of, get_report_type.
  cbn [isinstance_Submission item]. rewrite Hauthor.
  unfold report_content.
  change (content_branch "comment") with CommentBranch.
  cbn [obind]. rewrite Hroot. cbn [obind title_of body_of fst snd].
  do 2 eexists. split; [reflexivity|]. split; [reflexivity|].
  cbn [content_field].
  unfold set_thumbnail, set_footer. cbn [fields].
  apply content_field_add_field.
  do 2 apply content_field_add_reports_field.
  reflexivity.
Qed.

Lemma comment_title_is_root_submission_title_witness :
  exists e body,
    body_of (Sample.comment "c2" (Sample.comment "c1" (Sample.submission "abc123" "T")))
    = Ok body
    /\ generate_embed Sample.bot Sample.env_up
         (Sample.comment "c2" (Sample.comment "c1" (Sample.submission "abc123" "T")))
       = Ok e
    /\ content_field e = Some (Py.json_dumps "T", Py.json_dumps (excerpt body)).
Proof.
  refine (proj2 (comment_title_is_root_submission_title
                   Sample.bot Sample.env_up _ "T" _ 2
                   (Sample.comment "c2"
                      (Sample.comment "c1" (Sample.submission "abc123" "T")))
                   Sample.alice _ _ _)).
  - reflexivity.
  - reflexivity.
  - apply nested_reply, nested_top.
Defined.

(** ** The scenario of the specification *)

(** A report [abc123] with the moderator report [("spam", "mod1")] and no
    user report: the document has a [Mod Reports] field with the line
    [spam - mod1] and no [User Reports] field. *)
Example scenario_mod_reports_field :
  exists e,
    generate_embed Sample.bot Sample.env_up (Sample.submission "abc123" "T") = Ok e
    /\ map fst (fields e)
       = [Py.json_dumps "T"; "Mod Reports"; "Submission posted by alice"]
    /\ nth_error (fields e) 1 = Some ("Mod Reports", "spam - mod1").
Proof. eexists. split; [vm_compute; reflexivity|]. split; reflexivity. Qed.

(** * Further properties of the code *)

(** ** The store: [__report_exists] and [__save_report] *)

Lemma existsb_eqb_In (x : string) (l : list string) :
  existsb (String.eqb x) l = true <-> In x l.
Proof.
  rewrite existsb_exists. split.
  - intros [y [Hy Heq]]. apply String.eqb_eq in Heq. now subst.
  - intros Hx. exists x. split; [exact Hx | apply String.eqb_refl].
Qed.

Lemma existsb_eqb_not_In (x : string) (l : list string) :
  existsb (String.eqb x) l = false <-> ~ In x l.
Proof.
  split.
  - intros Hf Hin. apply existsb_eqb_In in Hin. congruence.
  - intros Hn. destruct (existsb (String.eqb x) l) eqn:E; [|reflexivity].
    apply existsb_eqb_In in E. contradiction.
Qed.

Lemma NoDup_snoc (l : list string) (x : string) :
  List.NoDup l -> ~ In x l -> List.NoDup (l ++ [x]).
Proof.
  induction l as [|a l IH]; simpl; intros Hl Hx.
  - constructor; [intros [] | constructor].
  - inversion Hl as [|a' l' Ha Hl']; subst. constructor.
    + intros Hin. apply in_app_or in Hin as [Hin | [<- | []]]; [contradiction|].
      apply Hx. now left.
    + apply IH; [exact Hl' | intros Hin; apply Hx; now right].
Qed.

Lemma report_exists_eq (report : Report) (w : World) :
  report_exists report w =
  if quote_free (str report)
  then (Ok (existsb (String.eqb (str report)) (visible w)), w)
  else (Unmodelled, w).
Proof.
  unfold report_exists, bind, cursor_execute, ret, visible.
  rewrite parse_report_exists_query.
  destruct (quote_free (str report)); reflexivity.
Qed.

Lemma save_report_eq (report : Report) (w : World) :
  save_report report w =
  if quote_free (str report)
  then (Ok tt, mkWorld (committed w ++ pending w ++ [str report]) []
                       (dispatches w) (stdout w))
  else (Unmodelled, w).
Proof.
  unfold save_report, bind, cursor_execute, conn_commit.
  rewrite parse_save_report_query.
  destruct (quote_free (str report)); reflexivity.
Qed.

(** X1: for an identity without a quote, [__report_exists] changes nothing
    and answers [True] exactly when a row with that identity is in the
    table (committed, or inserted by the open transaction). *)
Theorem report_exists_is_row_lookup (report : Report) (w : World) :
  quote_free (str report) = true ->
  exists answer,
    report_exists report w = (Ok answer, w)
    /\ (answer = true <-> In (str report) (visible w)).
Proof.
  intros Hq. rewrite report_exists_eq, Hq.
  eexists. split; [reflexivity | apply existsb_eqb_In].
Qed.

Lemma report_exists_is_row_lookup_witness :
  exists answer,
    report_exists (Sample.submission "r1" "T") (mkWorld ["r0"; "r1"] [] [] [])
    = (Ok answer, mkWorld ["r0"; "r1"] [] [] [])
    /\ (answer = true <-> In "r1" (visible (mkWorld ["r0"; "r1"] [] [] []))).
Proof.
  apply (report_exists_is_row_lookup (Sample.submission "r1" "T")
           (mkWorld ["r0"; "r1"] [] [] [])).
  reflexivity.
Defined.

(** X2: insert then look up.  For an identity without a quote,
    [__save_report] returns with the row committed and the transaction
    closed, rows that were there before come first and in the same order,
    and a following [__report_exists] for that identity answers [True]. *)
Theorem save_report_then_report_exists (report : Report) (w : World) :
  quote_free (str report) = true ->
  exists w',
    save_report report w = (Ok tt, w')
    /\ committed w' = visible w ++ [str report]
    /\ pending w' = []
    /\ dispatches w' = dispatches w
    /\ report_exists report w' = (Ok true, w').
Proof.
  intros Hq. rewrite save_report_eq, Hq. eexists. split; [reflexivity|].
  cbn [committed pending dispatches]. unfold visible.
  split; [now rewrite app_assoc|]. split; [reflexivity|]. split; [reflexivity|].
  rewrite report_exists_eq, Hq. f_equal. f_equal.
  apply existsb_eqb_In. unfold visible. cbn [committed pending].
  rewrite app_nil_r, app_assoc. apply in_or_app. right. now left.
Qed.

Lemma save_report_then_report_exists_witness :
  exists w',
    save_report (Sample.submission "r1" "T") Sample.world0 = (Ok tt, w')
    /\ committed w' = visible Sample.world0 ++ ["r1"]
    /\ pending w' = []
    /\ dispatches w' = dispatches Sample.world0
    /\ report_exists (Sample.submission "r1" "T") w' = (Ok true, w').
Proof.
  apply (save_report_then_report_exists (Sample.submission "r1" "T") Sample.world0).
  reflexivity.
Defined.

(** X3: [__save_report] does not look for an existing row: saving the same
    identity twice leaves two rows for it. *)
Theorem save_report_twice_duplicates (report : Report) (w : World) :
  quote_free (str report) = true ->
  committed (snd (save_report report (snd (save_report report w))))
  = visible w ++ [str report; str report].
Proof.
  intros Hq. rewrite (save_report_eq report w), Hq. cbn [snd].
  rewrite save_report_eq, Hq. cbn [snd committed pending]. unfold visible.
  rewrite app_nil_l, <- !app_assoc. reflexivity.
Qed.

Lemma save_report_twice_duplicates_witness :
  committed (snd (save_report (Sample.submission "r1" "T")
                    (snd (save_report (Sample.submission "r1" "T") Sample.world0))))
  = visible Sample.world0 ++ ["r1"; "r1"].
Proof.
  apply (save_report_twice_duplicates (Sample.submission "r1" "T") Sample.world0).
  reflexivity.
Defined.

(** ** The loop: rows, notifications and log *)

(** Splits a goal about one pass of the loop body into the seven ways the
    pass can go. *)
Ltac run_item_cases bot env r w :=
  rewrite (run_item_eq bot env r w); cbn zeta;
  destruct (quote_free (str r)) eqn:Hquote;
  [ destruct (existsb (String.eqb (str r)) (visible w)) eqn:Hseen;
    [ | destruct (negb (truthy (skip_discord bot))) eqn:Hsend;
        [ destruct (generate_embed bot env r) as [emb|exn|] eqn:Hrender;
          [ destruct (webhook_accepts env (map snd (dispatches w)) emb) eqn:Haccept
          | | ]
        | ] ]
  | ].

Lemma run_loop_invariant (bot : Bot) (env : Env) (P : World -> Prop) :
  (forall r w, P w -> P (snd (run_item bot env r w))) ->
  forall feed w, P w -> P (snd (run_loop bot env feed w)).
Proof.
  intros Hstep feed. induction feed as [|r feed IH]; intros w Hw; simpl.
  - exact Hw.
  - unfold bind. specialize (Hstep r w Hw).
    destruct (run_item bot env r w) as [[[]|e|] w1]; simpl in *; auto.
Qed.

Lemma run_item_keeps_rows_unique (bot : Bot) (env : Env) (r : Report) (w : World) :
  List.NoDup (visible w) -> List.NoDup (visible (snd (run_item bot env r w))).
Proof.
  intros Hnd.
  assert (Hnew : existsb (String.eqb (str r)) (visible w) = false ->
                 List.NoDup ((committed w ++ pending w ++ [str r]) ++ [])).
  { intros Hseen. rewrite app_nil_r, app_assoc.
    apply NoDup_snoc; [exact Hnd | now apply existsb_eqb_not_In]. }
  run_item_cases bot env r w; unfold visible; cbn [snd committed pending]; auto.
Qed.

(** X4: the loop never inserts an identity that is already in the table: if
    the rows are pairwise distinct when [run] starts, they are pairwise
    distinct when it stops, however it stops. *)
Theorem run_keeps_rows_unique (bot : Bot) (env : Env) (feed : list Report) (w : World) :
  List.NoDup (visible w) ->
  List.NoDup (visible (snd (run bot env feed w))).
Proof.
  intros Hnd. rewrite run_eq.
  apply (run_loop_invariant bot env (fun w => List.NoDup (visible w))).
  - intros r w0. apply run_item_keeps_rows_unique.
  - exact Hnd.
Qed.

Lemma run_keeps_rows_unique_witness :
  List.NoDup
    (visible (snd (run Sample.bot Sample.env_up
                     [Sample.submission "r1" "T"; Sample.submission "r1" "T";
                      Sample.submission "r2" "T"] (mkWorld ["r2"] [] [] [])))).
Proof.
  apply (run_keeps_rows_unique Sample.bot Sample.env_up
           [Sample.submission "r1" "T"; Sample.submission "r1" "T";
            Sample.submission "r2" "T"] (mkWorld ["r2"] [] [] [])).
  repeat constructor. intros [].
Defined.

Lemma run_loop_commits_in_feed_order
    (bot : Bot) (env : Env) (feed : list Report) (w w' : World) :
  pending w = [] ->
  List.NoDup (map str feed) ->
  (forall r, In r feed -> ~ In (str r) (committed w)) ->
  run_loop bot env feed w = (Ok tt, w') ->
  committed w' = committed w ++ map str feed /\ pending w' = [].
Proof.
  revert w. induction feed as [|r feed IH]; intros w Hp Hnd Hnew; simpl.
  - intros [= <-]. now rewrite app_nil_r.
  - inversion Hnd as [|x l Hr Hnd']; subst.
    assert (Hfresh : existsb (String.eqb (str r)) (visible w) = false).
    { apply existsb_eqb_not_In. unfold visible. rewrite Hp, app_nil_r.
      apply Hnew. now left. }
    assert (Hrest : forall r', In r' feed ->
              ~ In (str r') (committed w ++ pending w ++ [str r])).
    { intros r' Hin Hmem. rewrite Hp in Hmem.
      apply in_app_or in Hmem as [Hmem | [Heq | []]].
      - apply (Hnew r'); [now right | exact Hmem].
      - apply Hr. rewrite Heq. now apply in_map. }
    unfold bind. run_item_cases bot env r w; try discriminate.
    + intros Hrun. apply IH in Hrun; auto.
      cbn [committed pending] in Hrun. destruct Hrun as [-> ->].
      rewrite Hp. simpl. now rewrite <- app_assoc.
    + intros Hrun. apply IH in Hrun; auto.
      cbn [committed pending] in Hrun. destruct Hrun as [-> ->].
      rewrite Hp. simpl. now rewrite <- app_assoc.
Qed.

(** X5: arrival order.  When [run] goes through a feed of new reports with
    pairwise distinct identities, starting with no open transaction, the
    rows it has committed are those identities in the order of the feed,
    after the rows that were there. *)
Theorem run_commits_in_feed_order
    (bot : Bot) (env : Env) (feed : list Report) (w w' : World) :
  pending w = [] ->
  List.NoDup (map str feed) ->
  (forall r, In r feed -> ~ In (str r) (committed w)) ->
  run bot env feed w = (Ok tt, w') ->
  committed w' = committed w ++ map str feed /\ pending w' = [].
Proof.
  rewrite run_eq. intros Hp Hnd Hnew Hrun.
  apply run_loop_commits_in_feed_order in Hrun;
    [exact Hrun | exact Hp | exact Hnd | exact Hnew].
Qed.

Lemma run_commits_in_feed_order_witness :
  exists w',
    run Sample.bot Sample.env_up
        [Sample.submission "r2" "T"; Sample.submission "r1" "T"]
        (mkWorld ["r0"] [] [] []) = (Ok tt, w')
    /\ committed w' = ["r0"; "r2"; "r1"].
Proof.
  eexists. split; [vm_compute; reflexivity|].
  refine (proj1 (run_commits_in_feed_order Sample.bot Sample.env_up
                   [Sample.submission "r2" "T"; Sample.submission "r1" "T"]
                   (mkWorld ["r0"] [] [] []) _ _ _ _ _)).
  - reflexivity.
  - repeat constructor; simpl; intuition discriminate.
  - intros r [<- | [<- | []]]; simpl; intuition discriminate.
  - vm_compute. reflexivity.
Defined.

Lemma run_item_keeps_notifications_unique
    (bot : Bot) (env : Env) (r : Report) (w : World) :
  dispatched_are_committed w /\ List.NoDup (map fst (dispatches w)) ->
  dispatched_are_committed (snd (run_item bot env r w))
  /\ List.NoDup (map fst (dispatches (snd (run_item bot env r w)))).
Proof.
  intros [Hinv Hnd].
  split; [now apply run_item_keeps|].
  run_item_cases bot env r w; cbn [snd dispatches]; auto;
    rewrite map_app; simpl; apply NoDup_snoc; auto;
    intros Htag; apply in_map_iff in Htag as [[tag e] [Heq Hin]];
    simpl in Heq; subst tag;
    apply existsb_eqb_not_In in Hseen; apply Hseen;
    unfold visible; apply in_or_app; left; eapply Hinv, Hin.
Qed.

(** X6: no report is notified twice.  If every earlier call of [hook.send]
    was for a committed row and no identity was sent twice, the same holds
    when [run] stops, however it stops. *)
Theorem run_never_notifies_twice
    (bot : Bot) (env : Env) (feed : list Report) (w : World) :
  dispatched_are_committed w ->
  List.NoDup (map fst (dispatches w)) ->
  List.NoDup (map fst (dispatches (snd (run bot env feed w)))).
Proof.
  intros Hinv Hnd. rewrite run_eq.
  apply (run_loop_invariant bot env
           (fun w => dispatched_are_committed w
                     /\ List.NoDup (map fst (dispatches w)))).
  - intros r w0. apply run_item_keeps_notifications_unique.
  - split; assumption.
Qed.

Lemma run_never_notifies_twice_witness :
  List.NoDup
    (map fst (dispatches
       (snd (run Sample.bot Sample.env_up
               [Sample.submission "r1" "T"; Sample.submission "r2" "T";
                Sample.submission "r1" "T"] Sample.world0))))
  /\ length (dispatches
       (snd (run Sample.bot Sample.env_up
               [Sample.submission "r1" "T"; Sample.submission "r2" "T";
                Sample.submission "r1" "T"] Sample.world0))) = 2.
Proof.
  split.
  - apply (run_never_notifies_twice Sample.bot Sample.env_up
             [Sample.submission "r1" "T"; Sample.submission "r2" "T";
              Sample.submission "r1" "T"] Sample.world0).
    + intros tag embed [].
    + constructor.
  - vm_compute. reflexivity.
Defined.

Lemma run_loop_notifies_what_it_commits
    (bot : Bot) (env : Env) (feed : list Report) (w w' : World) :
  truthy (skip_discord bot) = false ->
  pending w = [] ->
  run_loop bot env feed w = (Ok tt, w') ->
  pending w' = []
  /\ exists added,
       committed w' = committed w ++ added
       /\ map fst (dispatches w') = map fst (dispatches w) ++ added.
Proof.
  intros Hskip. revert w. induction feed as [|r feed IH]; intros w Hp; simpl.
  - intros [= <-]. split; [exact Hp|]. exists []. now rewrite !app_nil_r.
  - unfold bind. run_item_cases bot env r w; try discriminate.
    + intros Hrun. apply IH in Hrun; [|exact Hp]. exact Hrun.
    + intros Hrun. apply IH in Hrun; [|reflexivity].
      cbn [committed pending dispatches] in Hrun.
      destruct Hrun as [Hp' [added [Hc Hd]]]. split; [exact Hp'|].
      exists (str r :: added). rewrite Hc, Hd, Hp, map_app. simpl.
      now rewrite <- !app_assoc.
    + rewrite Hskip in Hsend. discriminate.
Qed.

(** X7: with notifications enabled, a run that goes through its feed has
    called [hook.send] once for each row it committed, in the same order. *)
Theorem run_notifies_what_it_commits
    (bot : Bot) (env : Env) (feed : list Report) (w w' : World) :
  truthy (skip_discord bot) = false ->
  pending w = [] ->
  run bot env feed w = (Ok tt, w') ->
  exists added,
    committed w' = committed w ++ added
    /\ map fst (dispatches w') = map fst (dispatches w) ++ added.
Proof.
  rewrite run_eq. intros Hskip Hp Hrun.
  apply run_loop_notifies_what_it_commits in Hrun;
    [exact (proj2 Hrun) | exact Hskip | exact Hp].
Qed.

Lemma run_notifies_what_it_commits_witness :
  exists added,
    committed (snd (run Sample.bot Sample.env_up
                      [Sample.submission "r1" "T"; Sample.submission "r0" "T";
                       Sample.submission "r2" "T"] (mkWorld ["r0"] [] [] [])))
    = ["r0"] ++ added
    /\ map fst (dispatches
         (snd (run Sample.bot Sample.env_up
                 [Sample.submission "r1" "T"; Sample.submission "r0" "T";
                  Sample.submission "r2" "T"] (mkWorld ["r0"] [] [] []))))
       = [] ++ added.
Proof.
  apply (run_notifies_what_it_commits Sample.bot Sample.env_up
           [Sample.submission "r1" "T"; Sample.submission "r0" "T";
            Sample.submission "r2" "T"] (mkWorld ["r0"] [] [] [])).
  - reflexivity.
  - reflexivity.
  - vm_compute. reflexivity.
Defined.

(** X8: a failed notification is never retried.  Once a pass of the loop
    body has raised for a report, every later pass for that report, with
    any configuration and any state of the webhook, finds the row, prints
    that the report has already been reported and sends nothing. *)
Theorem failed_dispatch_is_never_retried
    (bot : Bot) (env : Env) (report : Report) (w w' : World) (e : Exn) :
  run_item bot env report w = (Raise e, w') ->
  forall (bot' : Bot) (env' : Env),
    run_item bot' env' report w'
    = (Ok tt, mkWorld (committed w') (pending w') (dispatches w')
                      (stdout w' ++ [checking_line report; already_line report])).
Proof.
  intros Hfail bot' env'.
  assert (Hrow : quote_free (str report) = true /\ In (str report) (visible w')).
  { revert Hfail. run_item_cases bot env report w; try discriminate;
      intros [= <- <-]; (split; [reflexivity|]);
      unfold visible; cbn [committed pending];
      rewrite app_nil_r, app_assoc; apply in_or_app; right; now left. }
  destruct Hrow as [Hq Hin].
  rewrite run_item_eq. cbn zeta. rewrite Hq.
  apply existsb_eqb_In in Hin. rewrite Hin.
  now rewrite <- app_assoc.
Qed.

Lemma failed_dispatch_is_never_retried_witness :
  exists w',
    run_item Sample.bot Sample.env_down (Sample.submission "r1" "T") Sample.world0
    = (Raise WebhookError, w')
    /\ run_item Sample.bot Sample.env_up (Sample.submission "r1" "T") w'
       = (Ok tt, mkWorld (committed w') (pending w') (dispatches w')
                         (stdout w' ++ ["Checking report r1...";
                                        "r1 has already been reported"])).
Proof.
  eexists. split.
  - vm_compute. reflexivity.
  - apply (failed_dispatch_is_never_retried Sample.bot Sample.env_down
             (Sample.submission "r1" "T") Sample.world0 _ WebhookError).
    vm_compute. reflexivity.
Defined.










(** ** The rendered document *)

Lemma fields_add_reports_field
    (e : Embed) (label : string) (reports : list (string * string)) :
  fields (add_reports_field e label reports)
  = fields e ++ reports_section label reports.
Proof.
  unfold add_reports_field, reports_section.
  destruct reports as [|r reports]; simpl; [now rewrite app_nil_r | reflexivity].
Qed.

(** What a rendering that returns has gone through. *)
Lemma generate_embed_ok_inv (bot : Bot) (env : Env) (report : Report) (e : Embed) :
  generate_embed bot env report = Ok e ->
  exists a tc,
    author (item report) = Some a
    /\ report_content env report (get_report_type report) = Ok tc
    /\ fields e
       = (Py.json_dumps (fst tc), Py.json_dumps (snd tc))
           :: reports_section "Mod Reports" (mod_reports (item report))
           ++ reports_section "User Reports" (user_reports (item report))
           ++ [(Py.format "{} posted by {}"
                  [Py.title (get_report_type report); name a],
                Py.join_lines
                  [Py.format "Account created {}"
                     [naturaltime_since env (author_created_utc a)];
                   Py.format "Link karma: {}" [Py.str_int (link_karma a)];
                   Py.format "Comment karma: {}" [Py.str_int (comment_karma a)]])].
Proof.
  unfold generate_embed, author_of.
  destruct (author (item report)) as [a|]; [|discriminate].
  cbn [obind].
  destruct (report_content env report (get_report_type report)) as [tc|x|];
    [|discriminate|discriminate].
  cbn [obind]. intros [= <-]. exists a, tc.
  split; [reflexivity|]. split; [reflexivity|].
  unfold set_thumbnail, set_footer. cbn [fields].
  unfold add_field at 1. cbn [fields].
  rewrite !fields_add_reports_field.
  unfold add_field, set_author, new_embed. cbn [fields].
  rewrite <- !app_assoc. reflexivity.
Qed.


(** X13: the fields of a rendered document, in order: the content field, a
    [Mod Reports] field when there is at least one moderator report, a
    [User Reports] field when there is at least one user report, and the
    field about the author.  An empty list of reports gives no field. *)
Theorem rendered_fields_layout
    (bot : Bot) (env : Env) (report : Report) (e : Embed) :
  generate_embed bot env report = Ok e ->
  exists content_field account_field,
    fields e
    = content_field
        :: reports_section "Mod Reports" (mod_reports (item report))
        ++ reports_section "User Reports" (user_reports (item report))
        ++ [account_field]
    /\ 2 <= length (fields e) <= 4.
Proof.
  intros Hok.
  destruct (generate_embed_ok_inv bot env report e Hok) as [a [tc [_ [_ Hf]]]].
  do 2 eexists. split; [exact Hf|].
  rewrite Hf.
  destruct (mod_reports (item report)), (user_reports (item report)); simpl; lia.
Qed.

Lemma rendered_fields_layout_witness :
  exists e content_field account_field,
    generate_embed Sample.bot Sample.env_up (Sample.submission "abc123" "T") = Ok e
    /\ fields e
       = [content_field; ("Mod Reports", "spam - mod1"); account_field].
Proof.
  eexists.
  assert (Hok : generate_embed Sample.bot Sample.env_up
                  (Sample.submission "abc123" "T")
                = Ok (match generate_embed Sample.bot Sample.env_up
                              (Sample.submission "abc123" "T") with
                      | Ok e => e
                      | _ => new_embed 0 EmptyString EmptyString EmptyString
                      end)) by (vm_compute; reflexivity).
  destruct (rendered_fields_layout _ _ _ _ Hok)
    as [content_field [account_field [Hf _]]].
  exists content_field, account_field. split; [exact Hok | exact Hf].
Defined.




Lemma excerpt_length (text : string) : String.length (excerpt text) <= 123.
Proof.
  unfold excerpt. destruct (120 <? String.length text) eqn:Hcmp.
  - apply Nat.ltb_lt in Hcmp.
    destruct (slice_to_split 120 text) as [rest [_ Hfirst]]; [lia|].
    rewrite length_append, Hfirst. simpl. lia.
  - apply Nat.ltb_ge in Hcmp. lia.
Qed.




Lemma slice_to_append (a b : string) :
  Py.slice_to (String.length a) (a +:+ b) = a.
Proof.
  unfold Py.slice_to. induction a as [|c a IH]; simpl.
  - now destruct b.
  - now rewrite IH.
Qed.

(** X15: the excerpt of any text has at most 123 characters, and taking the
    excerpt of an excerpt changes nothing. *)
Theorem excerpt_bounded_and_idempotent (text : string) :
  String.length (excerpt text) <= 123
  /\ excerpt (excerpt text) = excerpt text.
Proof.
  split; [apply excerpt_length|].
  unfold excerpt at 2 3. destruct (120 <? String.length text) eqn:Hcmp.
  - apply Nat.ltb_lt in Hcmp.
    destruct (slice_to_split 120 text) as [rest [_ Hfirst]]; [lia|].
    unfold excerpt.
    replace (120 <? String.length (Py.slice_to 120 text +:+ "...")) with true
      by (symmetry; apply Nat.ltb_lt; rewrite length_append, Hfirst; simpl; lia).
    rewrite <- Hfirst at 1. now rewrite slice_to_append.
  - unfold excerpt. now rewrite Hcmp.
Qed.

(** X16: truncation can lengthen.  The excerpt is longer than the text
    exactly when the text has 121 or 122 characters; for every other length
    it is at most as long as the text. *)
Theorem excerpt_longer_than_text (text : string) :
  String.length text < String.length (excerpt text)
  <-> String.length text = 121 \/ String.length text = 122.
Proof.
  unfold excerpt. destruct (120 <? String.length text) eqn:Hcmp.
  - apply Nat.ltb_lt in Hcmp.
    destruct (slice_to_split 120 text) as [rest [_ Hfirst]]; [lia|].
    rewrite length_append, Hfirst. simpl. lia.
  - apply Nat.ltb_ge in Hcmp. lia.
Qed.

(** ** The ancestor walk *)

Lemma top_level_comment_step
    (env : Env) (it pit : Item) (body pbody : string) (pp : Report) (n : nat) :
  top_level_comment env (Comment it body (Comment pit pbody pp)) n
  = obind (if n mod 9 =? 0 then refresh env (Comment pit pbody pp) else Ok tt)
          (fun _ => top_level_comment env (Comment pit pbody pp) (n + 1)).
Proof. reflexivity. Qed.

Lemma top_level_comment_refreshes
    (env : Env) (s : Report) (k : nat) (c : Report) :
  isinstance_Submission s = true ->
  nested_under s k c ->
  forall n,
    length (hops c) = k - 1
    /\ ((forall i p, nth_error (hops c) i = Some p -> (n + i) mod 9 = 0 ->
                     refresh_ok env p = true) ->
        exists it body, top_level_comment env c n = Ok (Comment it body s))
    /\ ((exists i p, nth_error (hops c) i = Some p /\ (n + i) mod 9 = 0
                     /\ refresh_ok env p = false) ->
        top_level_comment env c n = Raise ClientException).
Proof.
  intros Hs Hnested.
  induction Hnested as [it body | k it body p Hp IH]; intros n.
  - destruct s as [sit st ss | sit sb sp]; [|discriminate].
    split; [reflexivity|]. split.
    + intros _. exists it, body. reflexivity.
    + intros [i [p [Hnth _]]]. destruct i; discriminate.
  - destruct (nested_is_comment _ _ _ Hp) as [Hcomment Hk].
    destruct p as [pit pt ps | pit pbody pp]; [discriminate|].
    destruct (IH (n + 1)) as [Hlen [Hgood Hbad]].
    change (hops (Comment it body (Comment pit pbody pp)))
      with (Comment pit pbody pp :: hops (Comment pit pbody pp)).
    rewrite top_level_comment_step. unfold refresh.
    split; [cbn [length]; rewrite Hlen; lia|]. split.
    + intros Hall.
      assert (Hrest : exists it' body',
                top_level_comment env (Comment pit pbody pp) (n + 1)
                = Ok (Comment it' body' s)).
      { apply Hgood. intros i q Hnth Hmod. apply (Hall (S i) q Hnth).
        now replace (n + S i) with (n + 1 + i) by lia. }
      destruct (n mod 9 =? 0) eqn:Hn; [|exact Hrest].
      rewrite (Hall 0 (Comment pit pbody pp) eq_refl); [exact Hrest|].
      apply Nat.eqb_eq in Hn. now rewrite Nat.add_0_r.
    + intros [i [q [Hnth [Hmod Hfail]]]].
      destruct i as [|i].
      * injection Hnth as <-. rewrite Nat.add_0_r in Hmod.
        apply Nat.eqb_eq in Hmod. rewrite Hmod, Hfail. reflexivity.
      * assert (Hrest : top_level_comment env (Comment pit pbody pp) (n + 1)
                        = Raise ClientException).
        { apply Hbad. exists i, q. split; [exact Hnth|]. split; [|exact Hfail].
          now replace (n + 1 + i) with (n + S i) by lia. }
        destruct (n mod 9 =? 0); [|exact Hrest].
        destruct (refresh_ok env (Comment pit pbody pp)); [exact Hrest | reflexivity].
Qed.

(** X17: which ancestors the walk refreshes.  Under a comment [k] levels
    deep the walk moves to [k - 1] ancestors and refreshes the first, the
    tenth, the nineteenth of them, and so on.  It returns the submission
    when those can be refreshed, whatever the state of the others, and
    raises [ClientException] when one of them cannot.  A top-level comment
    is never refreshed. *)
Theorem walk_refreshes_every_ninth_ancestor
    (env : Env) (its : Item) (T selftext : string) (k : nat) (c : Report) :
  nested_under (Submission its T selftext) k c ->
  length (hops c) = k - 1
  /\ ((forall i p, nth_error (hops c) i = Some p -> i mod 9 = 0 ->
                   refresh_ok env p = true) ->
      get_submission_from_comment env c = Ok (Submission its T selftext))
  /\ ((exists i p, nth_error (hops c) i = Some p /\ i mod 9 = 0
                   /\ refresh_ok env p = false) ->
      get_submission_from_comment env c = Raise ClientException).
Proof.
  intros Hnested.
  destruct (top_level_comment_refreshes env (Submission its T selftext) k c
              eq_refl Hnested 0)
    as [Hlen [Hgood Hbad]].
  split; [exact Hlen|]. unfold get_submission_from_comment. split.
  - intros Hall. destruct (Hgood Hall) as [it [body ->]]. reflexivity.
  - intros Hone. now rewrite (Hbad Hone).
Qed.

Lemma walk_refreshes_every_ninth_ancestor_witness :
  let s := Sample.submission "abc123" "T" in
  let c := Sample.comment "c3" (Sample.comment "c2" (Sample.comment "c1" s)) in
  let only_c2 := mkEnv (fun _ _ => true) (fun r => String.eqb (str r) "c2")
                       (fun _ => EmptyString) (fun _ => EmptyString) in
  let not_c2 := mkEnv (fun _ _ => true) (fun r => negb (String.eqb (str r) "c2"))
                      (fun _ => EmptyString) (fun _ => EmptyString) in
  length (hops c) = 2
  /\ get_submission_from_comment only_c2 c = Ok s
  /\ get_submission_from_comment not_c2 c = Raise ClientException.
Proof.
  cbv zeta.
  assert (Hnested : nested_under (Sample.submission "abc123" "T") 3
            (Sample.comment "c3" (Sample.comment "c2"
               (Sample.comment "c1" (Sample.submission "abc123" "T")))))
    by (apply nested_reply, nested_reply, nested_top).
  split; [|split].
  - exact (proj1 (walk_refreshes_every_ninth_ancestor
                    Sample.env_up _ _ _ _ _ Hnested)).
  - refine (proj1 (proj2 (walk_refreshes_every_ninth_ancestor _ _ _ _ _ _ Hnested)) _).
    intros [|[|[|i]]] p Hnth Hmod; simpl in Hnth; try discriminate.
    injection Hnth as <-. reflexivity.
  - refine (proj2 (proj2 (walk_refreshes_every_ninth_ancestor _ _ _ _ _ _ Hnested)) _).
    exists 0, (Sample.comment "c2" (Sample.comment "c1" (Sample.submission "abc123" "T"))).
    repeat split.
Defined.

(** ** Start-up *)



(** ** Sessions *)

Lemma run_item_same_effects (bot : Bot) (env : Env) (r : Report) (w1 w2 : World) :
  same_effects w1 w2 ->
  fst (run_item bot env r w1) = fst (run_item bot env r w2)
  /\ same_effects (snd (run_item bot env r w1)) (snd (run_item bot env r w2)).
Proof.
  intros [Hc [Hp Hd]].
  rewrite (run_item_eq bot env r w2). cbn zeta.
  replace (visible w2) with (visible w1) by (unfold visible; congruence).
  rewrite <- Hd, <- Hc, <- Hp.
  run_item_cases bot env r w1; unfold same_effects; cbn [fst snd committed pending dispatches];
    auto.
Qed.

Lemma run_loop_same_effects
    (bot : Bot) (env : Env) (feed : list Report) (w1 w2 : World) :
  same_effects w1 w2 ->
  fst (run_loop bot env feed w1) = fst (run_loop bot env feed w2)
  /\ same_effects (snd (run_loop bot env feed w1)) (snd (run_loop bot env feed w2)).
Proof.
  revert w1 w2. induction feed as [|r feed IH]; intros w1 w2 Hsame; simpl.
  - split; [reflexivity | exact Hsame].
  - unfold bind.
    destruct (run_item_same_effects bot env r w1 w2 Hsame) as [Hout Hnext].
    destruct (run_item bot env r w1) as [o1 w1'], (run_item bot env r w2) as [o2 w2'].
    simpl in Hout, Hnext. subst o2.
    destruct o1 as [[]|e|]; simpl; auto.
Qed.

(** X19: stopping and starting again loses nothing.  If a session went
    through the feed [first], a new session over [second] ends as one
    session over the whole feed would have: same outcome, same rows, same
    calls of [hook.send]; only the printed lines differ. *)
Theorem restart_between_items_is_invisible
    (bot : Bot) (env : Env) (first second : list Report) (w w1 : World) :
  run bot env first w = (Ok tt, w1) ->
  fst (run bot env second w1) = fst (run bot env (first ++ second) w)
  /\ same_effects (snd (run bot env second w1))
                  (snd (run bot env (first ++ second) w)).
Proof.
  rewrite !run_eq. intros Hfirst.
  rewrite run_loop_app, Hfirst.
  apply run_loop_same_effects. repeat split.
Qed.

Lemma restart_between_items_is_invisible_witness :
  let a := [Sample.submission "r1" "T"] in
  let b := [Sample.submission "r1" "T"; Sample.submission "r2" "T"] in
  let w1 := snd (run Sample.bot Sample.env_up a Sample.world0) in
  fst (run Sample.bot Sample.env_up b w1)
  = fst (run Sample.bot Sample.env_up (a ++ b) Sample.world0)
  /\ same_effects (snd (run Sample.bot Sample.env_up b w1))
                  (snd (run Sample.bot Sample.env_up (a ++ b) Sample.world0)).
Proof.
  cbv zeta.
  apply (restart_between_items_is_invisible Sample.bot Sample.env_up
           [Sample.submission "r1" "T"]
           [Sample.submission "r1" "T"; Sample.submission "r2" "T"]
           Sample.world0).
  vm_compute. reflexivity.
Defined.

Lemma run_loop_of_seen_reports
    (bot : Bot) (env : Env) (feed : list Report) (w : World) :
  (forall r, In r feed -> quote_free (str r) = true /\ In (str r) (visible w)) ->
  fst (run_loop bot env feed w) = Ok tt
  /\ same_effects (snd (run_loop bot env feed w)) w.
Proof.
  revert w. induction feed as [|r feed IH]; intros w Hseen; simpl.
  - repeat split.
  - unfold bind. destruct (Hseen r (or_introl eq_refl)) as [Hq Hin].
    rewrite run_item_eq. cbn zeta. rewrite Hq.
    apply existsb_eqb_In in Hin. rewrite Hin.
    apply (IH (mkWorld (committed w) (pending w) (dispatches w)
                       ((stdout w ++ [checking_line r]) ++ [already_line r]))).
    intros r' Hr'. apply Hseen. now right.
Qed.

Lemma run_loop_ok_all_visible
    (bot : Bot) (env : Env) (feed : list Report) (w w' : World) :
  run_loop bot env feed w = (Ok tt, w') ->
  forall r, In r feed -> quote_free (str r) = true /\ In (str r) (visible w').
Proof.
  revert w. induction feed as [|r feed IH]; intros w; simpl.
  - intros _ r [].
  - unfold bind.
    destruct (run_item bot env r w) as [[[]|e|] w1] eqn:Hitem; try discriminate.
    intros Hrest r' [<- | Hin].
    + apply run_item_ok_visible in Hitem as [Hq Hvis]. split; [exact Hq|].
      pose proof (run_loop_keeps bot env feed w1) as [_ [Hmono _]].
      rewrite Hrest in Hmono. now apply Hmono.
    + now apply (IH w1).
Qed.

(** X20: replaying a feed is harmless.  After a session has gone through a
    feed, a session over the same feed, with any configuration and any
    state of the webhook, goes through it as well, inserts no row and calls
    [hook.send] for nothing. *)
Theorem replay_changes_only_the_log
    (bot bot' : Bot) (env env' : Env) (feed : list Report) (w w1 : World) :
  run bot env feed w = (Ok tt, w1) ->
  fst (run bot' env' feed w1) = Ok tt
  /\ same_effects (snd (run bot' env' feed w1)) w1.
Proof.
  rewrite !run_eq. intros Hrun.
  pose proof (run_loop_ok_all_visible bot env feed _ w1 Hrun) as Hseen.
  apply (run_loop_of_seen_reports bot' env' feed
           (mkWorld (committed w1) (pending w1) (dispatches w1)
                    (stdout w1 ++ ["Starting stream for all reports..."]))).
  exact Hseen.
Qed.

Lemma replay_changes_only_the_log_witness :
  let feed := [Sample.submission "r1" "T"; Sample.submission "r2" "T"] in
  let w1 := snd (run Sample.bot Sample.env_up feed Sample.world0) in
  fst (run Sample.bot Sample.env_down feed w1) = Ok tt
  /\ same_effects (snd (run Sample.bot Sample.env_down feed w1)) w1.
Proof.
  cbv zeta.
  apply (replay_changes_only_the_log Sample.bot Sample.bot Sample.env_up
           Sample.env_down
           [Sample.submission "r1" "T"; Sample.submission "r2" "T"] Sample.world0).
  vm_compute. reflexivity.
Defined.




Lemma run_item_sends_rendering (bot : Bot) (env : Env) (r : Report) (w : World) :
  forall tag e,
    In (tag, e) (dispatches (snd (run_item bot env r w))) ->
    In (tag, e) (dispatches w)
    \/ (str r = tag /\ generate_embed bot env r = Ok e).
Proof.
  intros tag e.
  run_item_cases bot env r w; cbn [snd dispatches]; auto;
    intros Hin; apply in_app_or in Hin as [Hin | [[= <- <-] | []]]; auto.
Qed.

Lemma run_loop_sends_renderings
    (bot : Bot) (env : Env) (feed : list Report) (w : World) :
  forall tag e,
    In (tag, e) (dispatches (snd (run_loop bot env feed w))) ->
    In (tag, e) (dispatches w)
    \/ exists r, In r feed /\ str r = tag /\ generate_embed bot env r = Ok e.
Proof.
  revert w. induction feed as [|r feed IH]; intros w tag e; simpl.
  - auto.
  - unfold bind.
    pose proof (run_item_sends_rendering bot env r w tag e) as Hitem.
    destruct (run_item bot env r w) as [[[]|x|] w1]; simpl in *.
    + intros Hin. apply IH in Hin as [Hin | [r' [Hr' Hsent]]].
      * apply Hitem in Hin as [Hin | Hsent]; [now left|].
        right. exists r. split; [now left | exact Hsent].
      * right. exists r'. split; [now right | exact Hsent].
    + intros Hin. apply Hitem in Hin as [Hin | Hsent]; [now left|].
      right. exists r. split; [now left | exact Hsent].
    + intros Hin. apply Hitem in Hin as [Hin | Hsent]; [now left|].
      right. exists r. split; [now left | exact Hsent].
Qed.

(** X22: what the webhook receives.  Every call of [hook.send] made during
    a run carries the document [__generate_embed] gives for a report of the
    feed, and is recorded for that report's identity. *)
Theorem run_sends_renderings_of_feed_reports
    (bot : Bot) (env : Env) (feed : list Report) (w : World)
    (tag : string) (e : Embed) :
  In (tag, e) (dispatches (snd (run bot env feed w))) ->
  In (tag, e) (dispatches w)
  \/ exists r, In r feed /\ str r = tag /\ generate_embed bot env r = Ok e.
Proof.
  rewrite run_eq. intros Hin.
  exact (run_loop_sends_renderings bot env feed
           (mkWorld (committed w) (pending w) (dispatches w)
                    (stdout w ++ ["Starting stream for all reports..."]))
           tag e Hin).
Qed.

Lemma run_sends_renderings_of_feed_reports_witness :
  exists e,
    dispatches (snd (run Sample.bot Sample.env_up
                       [Sample.submission "r1" "T"] Sample.world0)) = [("r1", e)]
    /\ (In ("r1", e) (dispatches Sample.world0)
        \/ exists r, In r [Sample.submission "r1" "T"] /\ str r = "r1"
                     /\ generate_embed Sample.bot Sample.env_up r = Ok e).
Proof.
  eexists. split; [vm_compute; reflexivity|].
  apply (run_sends_renderings_of_feed_reports Sample.bot Sample.env_up
           [Sample.submission "r1" "T"] Sample.world0).
  vm_compute. left. reflexivity.
Defined.
